(** * STX: Option, Result and the abort panic handler

    A shallow embedding of [include/stx/internal/option_result.h] and of
    [include/stx/panic/handlers/abort/abort.h].

    C++ member functions become functions into a small execution monad [M]
    which threads a trace of observable events (panics, aborts, callback
    invocations and the explicit lifetime statements of the source:
    destructor calls, placement [new] and [std::swap]) and whose outcome
    says whether control came back to the caller.  Objects are passed
    explicitly: a member function that mutates [*this] returns the new
    state of [*this] next to its C++ return value. *)

From Stdlib Require Import String List Bool Arith ZArith Lia.
From ExtLib Require Import Structures.Monad.
Import ListNotations.
Import MonadNotation.
Local Open Scope monad_scope.

Module stx.

(** ** Execution model *)

(** The object an event is about: [*this] of the running member function,
    or its [rhs] operand. *)
Inductive Object : Type := this_ | rhs_.

(** The member of the anonymous union an event is about. *)
Inductive Member : Type := storage_value | storage_err.

Inductive Event : Type :=
| EvPanic                                  (* the panic entry point was entered *)
| EvAbort                                  (* std::abort() was executed *)
| EvInvoke                                 (* a callable argument was called *)
| EvDestroy (o : Object) (m : Member)      (* o.m.~X() *)
| EvConstruct (o : Object) (m : Member)    (* new (&o.m) X(...) *)
| EvSwap (m : Member).                     (* std::swap on two m members *)

Definition Trace := list Event.

(** How a call ends: it returns a value, the process is terminated, or the
    behaviour is undefined (an access to a union member that is not alive). *)
Inductive Outcome (A : Type) : Type :=
| Returned (a : A)
| Terminated
| Undefined.
Arguments Returned {A} a.
Arguments Terminated {A}.
Arguments Undefined {A}.

Definition M (A : Type) : Type := Trace -> Outcome A * Trace.

Definition M_ret {A} (a : A) : M A := fun tr => (Returned a, tr).

Definition M_bind {A B} (m : M A) (k : A -> M B) : M B :=
  fun tr =>
    match m tr with
    | (Returned a, tr') => k a tr'
    | (Terminated, tr') => (Terminated, tr')
    | (Undefined, tr') => (Undefined, tr')
    end.

#[export] Instance Monad_M : Monad M :=
  {| ret := @M_ret; bind := @M_bind |}.

Definition emit (e : Event) : M unit := fun tr => (Returned tt, tr ++ [e]).

Definition undefined_behaviour {A} : M A := fun tr => (Undefined, tr).

(** [std::forward<Fn&&>(op)(x)]: the call of a callable argument. *)
Definition invoke {A B} (op : A -> M B) (x : A) : M B :=
  emit EvInvoke ;; op x.

Definition is_returned {A} (o : Outcome A) : bool :=
  match o with Returned _ => true | _ => false end.

Fixpoint count_panics (tr : Trace) : nat :=
  match tr with
  | [] => 0
  | EvPanic :: tr' => S (count_panics tr')
  | _ :: tr' => count_panics tr'
  end.

Fixpoint count_invocations (tr : Trace) : nat :=
  match tr with
  | [] => 0
  | EvInvoke :: tr' => S (count_invocations tr')
  | _ :: tr' => count_invocations tr'
  end.

(** The state a [T] is left in after it was the source of a move
    construction ([T(std::move(x))]); the new object holds the value [x]
    had. *)
Class MoveConstructible (T : Type) : Type := moved_from : T -> T.

(** [convertible_to<From, To>], with the conversion it stands for. *)
Class convertible_to (From To : Type) : Type := convert : From -> To.

(** [equality_comparable<A const&, B const&>]: [a == b] is an expression
    convertible to [bool]. *)
Class equality_comparable (A B : Type) : Type := equal : A -> B -> bool.

(** [default_constructible<T>], with the value [T()] builds. *)
Class default_constructible (T : Type) : Type := default_value : T.

(** [copy_constructible<T>], with the copy [T(x)] builds. *)
Class copy_constructible (T : Type) : Type := copy : T -> T.

#[export] Instance equality_comparable_nat : equality_comparable nat nat :=
  Nat.eqb.
#[export] Instance equality_comparable_string : equality_comparable string string :=
  String.eqb.
#[export] Instance default_constructible_nat : default_constructible nat := 0.
#[export] Instance copy_constructible_nat : copy_constructible nat := fun n => n.
#[export] Instance copy_constructible_string : copy_constructible string :=
  fun x => x.
#[export] Instance MoveConstructible_nat : MoveConstructible nat := fun n => n.
#[export] Instance MoveConstructible_string : MoveConstructible string :=
  fun _ => EmptyString.
#[export] Instance convertible_to_refl (A : Type) : convertible_to A A | 0 :=
  fun a => a.
#[export] Instance convertible_to_nat_Z : convertible_to nat Z | 1 := Z.of_nat.

(** ** The abort handler (stx/panic/handlers/abort/abort.h) *)

(** [std::abort()]: raises SIGABRT; control never comes back. *)
Definition std_abort {A} : M A := fun tr => (Terminated, tr ++ [EvAbort]).

Section Abort.
(** [SourceLocation] is declared in stx/panic.h; [panic_abort] only
    discards it. *)
Variable SourceLocation : Type.

Definition panic_abort (info : string) (location : SourceLocation) : M unit :=
  let _ := info in
  let _ := location in
  std_abort.

End Abort.
Arguments panic_abort {SourceLocation} info location.

(** ** Panic helpers *)

(** Modelled from the spec: the panic entry point of stx/panic.h is not
    among the sources.  Spec 4.3: "Triggered(message, location) ->
    [handler invoked] -> process terminates. No return path exists - a call
    is a terminal operation for the calling control flow."  One entry into
    the panic core is one [EvPanic], and the run ends there. *)
Definition panic {A} : M A := fun tr => (Terminated, tr ++ [EvPanic]).

Module internal.
Module option.

(** Modelled from the spec: [internal::option::no_lref] of
    stx/internal/panic_helpers.h is not among the sources.  Spec 4.1:
    [value()] "fails fatally (invokes panic core) if absent". *)
Definition no_lref : M unit := panic.

(** Modelled from the spec: [internal::option::no_value] of
    stx/internal/panic_helpers.h is not among the sources.  Spec 4.1:
    [unwrap()] "fails fatally if absent". *)
Definition no_value : M unit := panic.

(** Modelled from the spec: [internal::option::expect_value_failed] of
    stx/internal/panic_helpers.h is not among the sources.  Spec 4.1:
    [expect(message)] is "same as [unwrap] but the panic message is
    caller-supplied". *)
Definition expect_value_failed (msg : string) : M unit :=
  let _ := msg in panic.

(** Modelled from the spec: [internal::option::expect_none_failed] of
    stx/internal/panic_helpers.h is not among the sources.  Spec 4.1:
    "every payload-misuse path (value-on-absent, unwrap-on-absent,
    expect-none-on-present) is fatal". *)
Definition expect_none_failed {T} (msg : string) (value : T) : M unit :=
  let _ := msg in let _ := value in panic.

(** Modelled from the spec: [internal::option::no_none] of
    stx/internal/panic_helpers.h is not among the sources; it is the
    helper of [unwrap_none()], fatal like [expect_none_failed]. *)
Definition no_none {T} (value : T) : M unit := let _ := value in panic.

End option.
Module result.

(** Modelled from the spec: [internal::result::no_err_lref] of
    stx/internal/panic_helpers.h is not among the sources.  Spec 4.2:
    [error_value()] "fails fatally on wrong-variant access"; the success
    payload it is given only feeds the diagnostic message. *)
Definition no_err_lref {T} (value : T) : M unit := let _ := value in panic.

(** Modelled from the spec: [internal::result::no_lref] of
    stx/internal/panic_helpers.h is not among the sources.  Spec 4.2:
    [value()] "fails fatally on wrong-variant access". *)
Definition no_lref {E} (err : E) : M unit := let _ := err in panic.

(** Modelled from the spec: [internal::result::no_value] of
    stx/internal/panic_helpers.h is not among the sources.  Spec 4.2:
    [unwrap()] is "fatal on wrong-variant access". *)
Definition no_value {E} (err : E) : M unit := let _ := err in panic.

(** Modelled from the spec: [internal::result::expect_value_failed] of
    stx/internal/panic_helpers.h is not among the sources.  Spec 4.2:
    [expect(msg)] is "fatal on wrong-variant access". *)
Definition expect_value_failed {E} (msg : string) (err : E) : M unit :=
  let _ := msg in let _ := err in panic.

(** Modelled from the spec: [internal::result::no_err] of
    stx/internal/panic_helpers.h is not among the sources.  Spec 4.2:
    [unwrap_err()] is "fatal on wrong-variant access". *)
Definition no_err {T} (value : T) : M unit := let _ := value in panic.

(** Modelled from the spec: [internal::result::expect_err_failed] of
    stx/internal/panic_helpers.h is not among the sources.  Spec 4.2:
    [expect_err(msg)] is "fatal on wrong-variant access". *)
Definition expect_err_failed {T} (msg : string) (value : T) : M unit :=
  let _ := msg in let _ := value in panic.

End result.
End internal.

(** ** Wrapper types *)

Inductive NoneType : Type := None.

Record Some (T : Type) : Type := mkSome { Some_value_ : T }.
Arguments mkSome {T} _.
Arguments Some_value_ {T} _.

Record Ok (T : Type) : Type := mkOk { Ok_value_ : T }.
Arguments mkOk {T} _.
Arguments Ok_value_ {T} _.

Record Err (E : Type) : Type := mkErr { Err_value_ : E }.
Arguments mkErr {E} _.
Arguments Err_value_ {E} _.

(** [NoneType::operator==(NoneType const&)]: [return true;] *)
Definition NoneType_operator_eq (_ _ : NoneType) : bool := true.

(** [Some<T>::operator==(Some const& cmp)]: [return value() == cmp.value();] *)
Definition Some_operator_eq {T} `{equality_comparable T T} (self cmp : Some T)
  : bool :=
  equal (Some_value_ self) (Some_value_ cmp).

(** [Some<T>::operator==(NoneType const&)]: [return false;] *)
Definition Some_operator_eq_None {T} (self : Some T) (_ : NoneType) : bool :=
  false.

(** [Ok<T>::operator==(Ok const& cmp)]: [return value() == cmp.value();] *)
Definition Ok_operator_eq {T} `{equality_comparable T T} (self cmp : Ok T)
  : bool :=
  equal (Ok_value_ self) (Ok_value_ cmp).

(** [Ok<T>::operator==(Err<U> const&)]: [return false;] *)
Definition Ok_operator_eq_Err {T U} (self : Ok T) (_ : Err U) : bool := false.

(** [Err<E>::operator==(Err const& cmp)]: [return value() == cmp.value();] *)
Definition Err_operator_eq {E} `{equality_comparable E E} (self cmp : Err E)
  : bool :=
  equal (Err_value_ self) (Err_value_ cmp).

(** ** Storage *)

(** [union { T storage_value_; }] of [Option<T>]: the member is alive
    ([storage_value_ v]) or no member is ([inactive]). *)
Module OptionUnion.
Inductive t (T : Type) : Type :=
| inactive
| storage_value_ (v : T).
Arguments inactive {T}.
Arguments storage_value_ {T} v.
End OptionUnion.

(** [union { T storage_value_; E storage_err_; }] of [Result<T, E>]. *)
Module ResultUnion.
Inductive t (T E : Type) : Type :=
| inactive
| storage_value_ (v : T)
| storage_err_ (e : E).
Arguments inactive {T E}.
Arguments storage_value_ {T E} v.
Arguments storage_err_ {T E} e.
End ResultUnion.

Record Option (T : Type) : Type := mkOption {
  Option_union : OptionUnion.t T;
  is_none_ : bool
}.
Arguments mkOption {T} _ _.
Arguments Option_union {T} _.
Arguments is_none_ {T} _.

Record Result (T E : Type) : Type := mkResult {
  is_ok_ : bool;
  Result_union : ResultUnion.t T E
}.
Arguments mkResult {T E} _ _.
Arguments is_ok_ {T E} _.
Arguments Result_union {T E} _.

(** ** Converting constructors

    [Option] and [Result] refer to each other ([ok_or], [ok], [err]), so
    their converting constructors come before both. *)

(** [Option(Some<T>&& some) : storage_value_(std::move(some.value_)),
    is_none_(false)] *)
Definition Option_from_Some {T} (some : Some T) : Option T :=
  mkOption (OptionUnion.storage_value_ (Some_value_ some)) false.

(** [Option(NoneType const&) : is_none_(true)] *)
Definition Option_from_None {T} (_ : NoneType) : Option T :=
  mkOption OptionUnion.inactive true.

(** [Result(Ok<T>&& result) : is_ok_(true),
    storage_value_(std::forward<T>(result.value_))] *)
Definition Result_from_Ok {T E} (result : Ok T) : Result T E :=
  mkResult true (ResultUnion.storage_value_ (Ok_value_ result)).

(** [Result(Err<E>&& err) : is_ok_(false),
    storage_err_(std::forward<E>(err.value_))] *)
Definition Result_from_Err {T E} (err : Err E) : Result T E :=
  mkResult false (ResultUnion.storage_err_ (Err_value_ err)).

(** The four states, in the words of the specification. *)
Definition Present {T} (v : T) : Option T := Option_from_Some (mkSome v).
Definition Absent {T} : Option T := Option_from_None None.
Definition Success {T E} (v : T) : Result T E := Result_from_Ok (mkOk v).
Definition Failure {T E} (e : E) : Result T E := Result_from_Err (mkErr e).

(** ** Option<T> *)

Module Option.
Import OptionUnion.
Section Members.
Context {T : Type}.

Definition is_none (self : Option T) : bool := is_none_ self.
Definition is_some (self : Option T) : bool := negb (is_none self).

(** The discriminant matches the live member. *)
Definition wfb (self : Option T) : bool :=
  match Option_union self, is_none_ self with
  | inactive, true => true
  | storage_value_ _, false => true
  | _, _ => false
  end.
Definition wf (self : Option T) : Prop := wfb self = true.

(** [value_ref_()] and [value_cref_()]: [return storage_value_;] *)
Definition value_ref_ (self : Option T) : M T :=
  match Option_union self with
  | storage_value_ v => ret v
  | inactive => undefined_behaviour
  end.

(** [std::move(o.storage_value_)] as the argument of a constructor of [T]:
    yields the payload and leaves the moved-from payload in [o]. *)
Definition move_storage_value_ `{MoveConstructible T} (o : Option T)
  : M (T * Option T) :=
  match Option_union o with
  | storage_value_ v =>
      ret (v, mkOption (storage_value_ (moved_from v)) (is_none_ o))
  | inactive => undefined_behaviour
  end.

(** [new (&o.storage_value_) T(v)] *)
Definition construct_storage_value_ (who : Object) (o : Option T) (v : T)
  : M (Option T) :=
  emit (EvConstruct who storage_value) ;;
  ret (mkOption (storage_value_ v) (is_none_ o)).

(** [o.storage_value_.~T()] *)
Definition destroy_storage_value_ (who : Object) (o : Option T) : M (Option T) :=
  match Option_union o with
  | storage_value_ _ =>
      emit (EvDestroy who storage_value) ;;
      ret (mkOption inactive (is_none_ o))
  | inactive => undefined_behaviour
  end.

(** [o.is_none_ = b] *)
Definition set_is_none_ (o : Option T) (b : bool) : Option T :=
  mkOption (Option_union o) b.

(** [std::swap(x, o.storage_value_)] for a local [x] *)
Definition swap_with_storage_value_ (x : T) (o : Option T) : M (T * Option T) :=
  match Option_union o with
  | storage_value_ v =>
      emit (EvSwap storage_value) ;;
      ret (v, mkOption (storage_value_ x) (is_none_ o))
  | inactive => undefined_behaviour
  end.

(** [std::swap(a.storage_value_, b.storage_value_)] *)
Definition swap_storage_value_ (a b : Option T) : M (Option T * Option T) :=
  match Option_union a, Option_union b with
  | storage_value_ va, storage_value_ vb =>
      emit (EvSwap storage_value) ;;
      ret (mkOption (storage_value_ vb) (is_none_ a),
           mkOption (storage_value_ va) (is_none_ b))
  | _, _ => undefined_behaviour
  end.

(** [Option(Option&& rhs) : is_none_(rhs.is_none_)
      { if (rhs.is_some()) new (&storage_value_) T(std::move(rhs.storage_value_)); }]
    [rhs] is an expiring operand; what is left in it is not returned. *)
Definition move_ctor (rhs : Option T) : M (Option T) :=
  let self := mkOption inactive (is_none_ rhs) in
  if is_some rhs then
    v <- value_ref_ rhs ;;
    construct_storage_value_ this_ self v
  else ret self.

(** [Option& operator=(Option&& rhs)]; returns the states of [*this] and of
    [rhs] after the assignment. *)
Definition operator_assign `{MoveConstructible T} (self rhs : Option T)
  : M (Option T * Option T) :=
  if is_some self && is_some rhs then
    swap_storage_value_ self rhs
  else if is_some self && is_none rhs then
    '(v, self) <- move_storage_value_ self ;;
    rhs <- construct_storage_value_ rhs_ rhs v ;;
    self <- destroy_storage_value_ this_ self ;;
    let self := set_is_none_ self true in
    let rhs := set_is_none_ rhs false in
    ret (self, rhs)
  else if is_none self && is_some rhs then
    '(v, rhs) <- move_storage_value_ rhs ;;
    self <- construct_storage_value_ this_ self v ;;
    rhs <- destroy_storage_value_ rhs_ rhs ;;
    let rhs := set_is_none_ rhs true in
    let self := set_is_none_ self false in
    ret (self, rhs)
  else ret (self, rhs).

(** [T& value() & noexcept] *)
Definition value (self : Option T) : M T :=
  (if is_none_ self then internal.option.no_lref else ret tt) ;;
  value_ref_ self.

(** [auto unwrap() && -> T]; the [else] branch has no [return]. *)
Definition unwrap (self : Option T) : M T :=
  if is_some self then value_ref_ self
  else internal.option.no_value ;; undefined_behaviour.

(** [auto OR(Option&& alt) && -> Option] *)
Definition OR (self alt : Option T) : M (Option T) :=
  if is_some self then move_ctor self
  else move_ctor alt.

(** [auto XOR(Option&& alt) && -> Option] *)
Definition XOR (self alt : Option T) : M (Option T) :=
  if is_some self && is_none alt then move_ctor self
  else if is_none self && is_some alt then move_ctor alt
  else ret (Option_from_None None).

(** [auto take() -> Option]; returns the result and the state of [*this]. *)
Definition take `{MoveConstructible T} (self : Option T)
  : M (Option T * Option T) :=
  if is_some self then
    '(v, self) <- move_storage_value_ self ;;
    let some := mkSome v in
    self <- destroy_storage_value_ this_ self ;;
    let self := set_is_none_ self true in
    ret (Option_from_Some some, self)
  else ret (Option_from_None None, self).

(** [auto replace(T&& replacement) -> Option]; returns the result and the
    state of [*this]. *)
Definition replace (self : Option T) (replacement : T)
  : M (Option T * Option T) :=
  if is_some self then
    '(replacement, self) <- swap_with_storage_value_ replacement self ;;
    ret (Option_from_Some (mkSome replacement), self)
  else
    self <- construct_storage_value_ this_ self replacement ;;
    let self := set_is_none_ self false in
    ret (Option_from_None None, self).

(** [auto replace(T const& replacement) -> Option] *)
Definition replace_const_ref (self : Option T) (replacement : T)
  : M (Option T * Option T) :=
  if is_some self then
    let copy := replacement in
    '(copy, self) <- swap_with_storage_value_ copy self ;;
    ret (Option_from_Some (mkSome copy), self)
  else
    self <- construct_storage_value_ this_ self replacement ;;
    let self := set_is_none_ self false in
    ret (Option_from_None None, self).

End Members.

(** [auto AND(Option<U>&& cmp) && -> Option<U>] *)
Definition AND {T U : Type} (self : Option T) (cmp : Option U) : M (Option U) :=
  if is_some self then move_ctor cmp
  else ret (Option_from_None None).

(** [auto and_then(Fn&& op) && -> invoke_result<Fn&&, T&&>]; the result type
    has to be constructible from [None]. *)
Definition and_then {T U : Type} (self : Option T) (op : T -> M (Option U))
  : M (Option U) :=
  if is_some self then
    v <- value_ref_ self ;;
    invoke op v
  else ret (Option_from_None None).

(** [auto ok_or(E error) && -> Result<T, E>] *)
Definition ok_or {T E : Type} (self : Option T) (error : E) : M (Result T E) :=
  if is_some self then
    v <- value_ref_ self ;;
    ret (Result_from_Ok (mkOk v))
  else ret (Result_from_Err (mkErr error)).

(** *** Further members of [Option<T>] *)

(** [~Option() noexcept { if (is_some()) storage_value_.~T(); }]; returns
    what is left of the object. *)
Definition destructor {T} (self : Option T) : M (Option T) :=
  if is_some self then destroy_storage_value_ this_ self
  else ret self.

(** [bool operator==(Option const& cmp) const] *)
Definition operator_eq {T} `{equality_comparable T T} (self cmp : Option T)
  : M bool :=
  if is_some self && is_some cmp then
    a <- value_ref_ self ;;
    b <- value_ref_ cmp ;;
    ret (equal a b)
  else if is_none self && is_none cmp then ret true
  else ret false.

(** [bool operator==(Some<T> const& cmp) const] *)
Definition operator_eq_Some {T} `{equality_comparable T T}
  (self : Option T) (cmp : Some T) : M bool :=
  if is_some self then
    a <- value_ref_ self ;;
    ret (equal a (Some_value_ cmp))
  else ret false.

(** [bool operator==(NoneType const&) const noexcept] *)
Definition operator_eq_None {T} (self : Option T) (_ : NoneType) : M bool :=
  ret (is_none self).

(** [bool contains(CmpType const& cmp) const] *)
Definition contains {T CmpType} `{equality_comparable T CmpType}
  (self : Option T) (cmp : CmpType) : M bool :=
  if is_some self then
    a <- value_ref_ self ;;
    ret (equal a cmp)
  else ret false.

(** [bool exists(UnaryPredicate&& predicate) const] *)
Definition exists_ {T} (self : Option T) (predicate : T -> M bool) : M bool :=
  if is_some self then
    a <- value_ref_ self ;;
    invoke predicate a
  else ret false.

(** [auto expect(std::string_view msg) && -> T]; the [else] branch has no
    [return]. *)
Definition expect {T} (self : Option T) (msg : string) : M T :=
  if is_some self then value_ref_ self
  else internal.option.expect_value_failed msg ;; undefined_behaviour.

(** [auto unwrap_or(T&& alt) && -> T] *)
Definition unwrap_or {T} (self : Option T) (alt : T) : M T :=
  if is_some self then value_ref_ self
  else ret alt.

(** [auto unwrap_or_else(Fn&& op) && -> T] *)
Definition unwrap_or_else {T} (self : Option T) (op : unit -> M T) : M T :=
  if is_some self then value_ref_ self
  else invoke op tt.

(** [auto map(Fn&& op) && -> Option<invoke_result<Fn&&, T&&>>] *)
Definition map {T R} (self : Option T) (op : T -> M R) : M (Option R) :=
  if is_some self then
    v <- value_ref_ self ;;
    r <- invoke op v ;;
    ret (Option_from_Some (mkSome r))
  else ret (Option_from_None None).

(** [auto map_or(Fn&& op, A&& alt) && -> invoke_result<Fn&&, T&&>] *)
Definition map_or {T R} (self : Option T) (op : T -> M R) (alt : R) : M R :=
  if is_some self then
    v <- value_ref_ self ;;
    invoke op v
  else ret alt.

(** [auto map_or_else(Fn&& op, AltFn&& alt) && -> invoke_result<Fn&&, T&&>] *)
Definition map_or_else {T R} (self : Option T) (op : T -> M R)
  (alt : unit -> M R) : M R :=
  if is_some self then
    v <- value_ref_ self ;;
    invoke op v
  else invoke alt tt.

(** [auto ok_or_else(Fn&& op) && -> Result<T, invoke_result<Fn&&>>] *)
Definition ok_or_else {T E} (self : Option T) (op : unit -> M E)
  : M (Result T E) :=
  if is_some self then
    v <- value_ref_ self ;;
    ret (Result_from_Ok (mkOk v))
  else
    e <- invoke op tt ;;
    ret (Result_from_Err (mkErr e)).

(** [auto filter(UnaryPredicate&& predicate) && -> Option]:
    [if (is_some() && predicate(value_cref_())) return std::move( *this);
     else return None;] *)
Definition filter {T} (self : Option T) (predicate : T -> M bool)
  : M (Option T) :=
  keep <- (if is_some self then
             v <- value_ref_ self ;;
             invoke predicate v
           else ret false) ;;
  if keep : bool then move_ctor self
  else ret (Option_from_None None).

(** [auto filter_not(UnaryPredicate&& predicate) && -> Option]:
    [if (is_some() && !predicate(value_cref_())) return std::move( *this);
     else return None;] *)
Definition filter_not {T} (self : Option T) (predicate : T -> M bool)
  : M (Option T) :=
  keep <- (if is_some self then
             v <- value_ref_ self ;;
             p <- invoke predicate v ;;
             ret (negb p)
           else ret false) ;;
  if keep : bool then move_ctor self
  else ret (Option_from_None None).

(** [auto or_else(Fn&& op) && -> Option] *)
Definition or_else {T} (self : Option T) (op : unit -> M (Option T))
  : M (Option T) :=
  if is_some self then move_ctor self
  else invoke op tt.

(** [auto clone() const -> Option requires copy_constructible<T>] *)
Definition clone {T} `{copy_constructible T} (self : Option T) : M (Option T) :=
  if is_some self then
    v <- value_ref_ self ;;
    ret (Option_from_Some (mkSome (copy v)))
  else ret (Option_from_None None).

(** [void expect_none(std::string_view msg) &&] *)
Definition expect_none {T} (self : Option T) (msg : string) : M unit :=
  if is_some self then
    v <- value_ref_ self ;;
    internal.option.expect_none_failed msg v
  else ret tt.

(** [void unwrap_none() &&] *)
Definition unwrap_none {T} (self : Option T) : M unit :=
  if is_some self then
    v <- value_ref_ self ;;
    internal.option.no_none v
  else ret tt.

(** [auto unwrap_or_default() && -> T requires default_constructible<T>] *)
Definition unwrap_or_default {T} `{default_constructible T} (self : Option T)
  : M T :=
  if is_some self then value_ref_ self
  else ret default_value.

(** [auto match(SomeFn&& some_fn, NoneFn&& none_fn) &&
      -> invoke_result<SomeFn&&, T&&>] *)
Definition match_ {T R} (self : Option T) (some_fn : T -> M R)
  (none_fn : unit -> M R) : M R :=
  if is_some self then
    v <- value_ref_ self ;;
    invoke some_fn v
  else invoke none_fn tt.

End Option.

(** ** Result<T, E> *)

Module Result.
Import ResultUnion.
Section Members.
Context {T E : Type}.

Definition is_ok (self : Result T E) : bool := is_ok_ self.
Definition is_err (self : Result T E) : bool := negb (is_ok self).

(** The discriminant matches the live member. *)
Definition wfb (self : Result T E) : bool :=
  match is_ok_ self, Result_union self with
  | true, storage_value_ _ => true
  | false, storage_err_ _ => true
  | _, _ => false
  end.
Definition wf (self : Result T E) : Prop := wfb self = true.

(** [value_ref_()] and [value_cref_()]: [return storage_value_;] *)
Definition value_ref_ (self : Result T E) : M T :=
  match Result_union self with
  | storage_value_ v => ret v
  | _ => undefined_behaviour
  end.

(** [err_ref_()] and [err_cref_()]: [return storage_err_;] *)
Definition err_ref_ (self : Result T E) : M E :=
  match Result_union self with
  | storage_err_ e => ret e
  | _ => undefined_behaviour
  end.

(** [std::move(o.storage_value_)] as the argument of a constructor of [T] *)
Definition move_storage_value_ `{MoveConstructible T} (o : Result T E)
  : M (T * Result T E) :=
  match Result_union o with
  | storage_value_ v =>
      ret (v, mkResult (is_ok_ o) (storage_value_ (moved_from v)))
  | _ => undefined_behaviour
  end.

(** [std::move(o.storage_err_)] as the argument of a constructor of [E] *)
Definition move_storage_err_ `{MoveConstructible E} (o : Result T E)
  : M (E * Result T E) :=
  match Result_union o with
  | storage_err_ e =>
      ret (e, mkResult (is_ok_ o) (storage_err_ (moved_from e)))
  | _ => undefined_behaviour
  end.

(** [new (&o.storage_value_) T(v)] *)
Definition construct_storage_value_ (who : Object) (o : Result T E) (v : T)
  : M (Result T E) :=
  emit (EvConstruct who storage_value) ;;
  ret (mkResult (is_ok_ o) (storage_value_ v)).

(** [new (&o.storage_err_) E(e)] *)
Definition construct_storage_err_ (who : Object) (o : Result T E) (e : E)
  : M (Result T E) :=
  emit (EvConstruct who storage_err) ;;
  ret (mkResult (is_ok_ o) (storage_err_ e)).

(** [o.storage_value_.~T()] *)
Definition destroy_storage_value_ (who : Object) (o : Result T E)
  : M (Result T E) :=
  match Result_union o with
  | storage_value_ _ =>
      emit (EvDestroy who storage_value) ;;
      ret (mkResult (is_ok_ o) inactive)
  | _ => undefined_behaviour
  end.

(** [o.storage_err_.~E()] *)
Definition destroy_storage_err_ (who : Object) (o : Result T E)
  : M (Result T E) :=
  match Result_union o with
  | storage_err_ _ =>
      emit (EvDestroy who storage_err) ;;
      ret (mkResult (is_ok_ o) inactive)
  | _ => undefined_behaviour
  end.

(** [o.is_ok_ = b] *)
Definition set_is_ok_ (o : Result T E) (b : bool) : Result T E :=
  mkResult b (Result_union o).

(** [std::swap(a.value_ref_(), b.value_ref_())] *)
Definition swap_value_ref_ (a b : Result T E) : M (Result T E * Result T E) :=
  match Result_union a, Result_union b with
  | storage_value_ va, storage_value_ vb =>
      emit (EvSwap storage_value) ;;
      ret (mkResult (is_ok_ a) (storage_value_ vb),
           mkResult (is_ok_ b) (storage_value_ va))
  | _, _ => undefined_behaviour
  end.

(** [std::swap(a.err_ref_(), b.err_ref_())] *)
Definition swap_err_ref_ (a b : Result T E) : M (Result T E * Result T E) :=
  match Result_union a, Result_union b with
  | storage_err_ ea, storage_err_ eb =>
      emit (EvSwap storage_err) ;;
      ret (mkResult (is_ok_ a) (storage_err_ eb),
           mkResult (is_ok_ b) (storage_err_ ea))
  | _, _ => undefined_behaviour
  end.

(** [Result(Result&& rhs) : is_ok_(rhs.is_ok_)]; [rhs] is an expiring
    operand, what is left in it is not returned. *)
Definition move_ctor (rhs : Result T E) : M (Result T E) :=
  let self := mkResult (is_ok_ rhs) inactive in
  if is_ok rhs then
    v <- value_ref_ rhs ;;
    construct_storage_value_ this_ self v
  else
    e <- err_ref_ rhs ;;
    construct_storage_err_ this_ self e.

(** [Result& operator=(Result&& rhs)]; returns the states of [*this] and of
    [rhs] after the assignment. *)
Definition operator_assign `{MoveConstructible T} `{MoveConstructible E}
  (self rhs : Result T E) : M (Result T E * Result T E) :=
  if is_ok self && is_ok rhs then
    swap_value_ref_ self rhs
  else if is_ok self && is_err rhs then
    self <- destroy_storage_value_ this_ self ;;
    '(e, rhs) <- move_storage_err_ rhs ;;
    self <- construct_storage_err_ this_ self e ;;
    let self := set_is_ok_ self false in
    ret (self, rhs)
  else if is_err self && is_ok rhs then
    self <- destroy_storage_err_ this_ self ;;
    '(v, rhs) <- move_storage_value_ rhs ;;
    self <- construct_storage_value_ this_ self v ;;
    let self := set_is_ok_ self true in
    ret (self, rhs)
  else
    swap_err_ref_ self rhs.

(** [E& err_value() & noexcept] *)
Definition err_value (self : Result T E) : M E :=
  (if is_ok_ self then
     v <- value_ref_ self ;;
     internal.result.no_err_lref v
   else ret tt) ;;
  err_ref_ self.

(** [auto ok() && -> Option<T>] *)
Definition ok (self : Result T E) : M (Option T) :=
  if is_ok self then
    v <- value_ref_ self ;;
    ret (Option_from_Some (mkSome v))
  else ret (Option_from_None None).

(** [auto err() && -> Option<E>] *)
Definition err (self : Result T E) : M (Option E) :=
  if is_ok self then ret (Option_from_None None)
  else
    e <- err_ref_ self ;;
    ret (Option_from_Some (mkSome e)).

End Members.

(** [template <typename U, typename F> requires convertible_to<E, F>
    auto AND(Result<U, F>&& res) && -> Result<U, F>] *)
Definition AND {T E U F : Type} `{convertible_to E F}
  (self : Result T E) (res : Result U F) : M (Result U F) :=
  if is_ok self then move_ctor res
  else
    e <- err_ref_ self ;;
    ret (Result_from_Err (mkErr (convert e))).

(** [auto and_then(Fn&& op) && -> Result<invoke_result<Fn&&, T&&>, E>] *)
Definition and_then {T E R : Type} (self : Result T E) (op : T -> M R)
  : M (Result R E) :=
  if is_ok self then
    v <- value_ref_ self ;;
    r <- invoke op v ;;
    ret (Result_from_Ok (mkOk r))
  else
    e <- err_ref_ self ;;
    ret (Result_from_Err (mkErr e)).

(** [template <typename U, typename F> requires convertible_to<T&&, U>
    auto OR(Result<U, F>&& alt) && -> Result<U, F>] *)
Definition OR {T E U F : Type} `{convertible_to T U}
  (self : Result T E) (alt : Result U F) : M (Result U F) :=
  if is_ok self then
    v <- value_ref_ self ;;
    ret (Result_from_Ok (mkOk (convert v)))
  else move_ctor alt.

(** *** Further members of [Result<T, E>] *)

(** [~Result() noexcept { if (is_ok()) storage_value_.~T();
                          else storage_err_.~E(); }] *)
Definition destructor {T E} (self : Result T E) : M (Result T E) :=
  if is_ok self then destroy_storage_value_ this_ self
  else destroy_storage_err_ this_ self.

(** [bool operator==(Ok<T> const& cmp) const] *)
Definition operator_eq_Ok {T E} `{equality_comparable T T}
  (self : Result T E) (cmp : Ok T) : M bool :=
  if is_ok self then
    a <- value_ref_ self ;;
    ret (equal a (Ok_value_ cmp))
  else ret false.

(** [bool operator==(Err<E> const& cmp) const] *)
Definition operator_eq_Err {T E} `{equality_comparable E E}
  (self : Result T E) (cmp : Err E) : M bool :=
  if is_ok self then ret false
  else
    a <- err_ref_ self ;;
    ret (equal a (Err_value_ cmp)).

(** [bool operator==(Result const& cmp) const] *)
Definition operator_eq {T E} `{equality_comparable T T}
  `{equality_comparable E E} (self cmp : Result T E) : M bool :=
  if is_ok self && is_ok cmp then
    a <- value_ref_ self ;;
    b <- value_ref_ cmp ;;
    ret (equal a b)
  else if is_err self && is_err cmp then
    a <- err_ref_ self ;;
    b <- err_ref_ cmp ;;
    ret (equal a b)
  else ret false.

(** [bool contains(CmpType const& cmp) const] *)
Definition contains {T E CmpType} `{equality_comparable T CmpType}
  (self : Result T E) (cmp : CmpType) : M bool :=
  if is_ok self then
    a <- value_ref_ self ;;
    ret (equal a cmp)
  else ret false.

(** [bool contains_err(ErrCmp const& cmp) const] *)
Definition contains_err {T E ErrCmp} `{equality_comparable E ErrCmp}
  (self : Result T E) (cmp : ErrCmp) : M bool :=
  if is_ok self then ret false
  else
    a <- err_ref_ self ;;
    ret (equal a cmp).

(** [bool exists(UnaryPredicate&& predicate) const] *)
Definition exists_ {T E} (self : Result T E) (predicate : T -> M bool)
  : M bool :=
  if is_ok self then
    a <- value_ref_ self ;;
    invoke predicate a
  else ret false.

(** [bool err_exists(UnaryPredicate&& predicate) const] *)
Definition err_exists {T E} (self : Result T E) (predicate : E -> M bool)
  : M bool :=
  if is_err self then
    a <- err_ref_ self ;;
    invoke predicate a
  else ret false.

(** [T& value() & noexcept] *)
Definition value {T E} (self : Result T E) : M T :=
  (if is_err self then
     e <- err_ref_ self ;;
     internal.result.no_lref e
   else ret tt) ;;
  value_ref_ self.

(** [auto map(Fn&& op) && -> Result<invoke_result<Fn&&, T&&>, E>] *)
Definition map {T E R} (self : Result T E) (op : T -> M R) : M (Result R E) :=
  if is_ok self then
    v <- value_ref_ self ;;
    r <- invoke op v ;;
    ret (Result_from_Ok (mkOk r))
  else
    e <- err_ref_ self ;;
    ret (Result_from_Err (mkErr e)).

(** [auto map_or(Fn&& op, AltType&& alt) && -> invoke_result<Fn&&, T&&>] *)
Definition map_or {T E R} (self : Result T E) (op : T -> M R) (alt : R) : M R :=
  if is_ok self then
    v <- value_ref_ self ;;
    invoke op v
  else ret alt.

(** [auto map_or_else(Fn&& op, A&& alt_op) && -> invoke_result<Fn&&, T&&>] *)
Definition map_or_else {T E R} (self : Result T E) (op : T -> M R)
  (alt_op : E -> M R) : M R :=
  if is_ok self then
    v <- value_ref_ self ;;
    invoke op v
  else
    e <- err_ref_ self ;;
    invoke alt_op e.

(** [auto map_err(Fn&& op) && -> Result<T, invoke_result<Fn&&, E&&>>] *)
Definition map_err {T E F} (self : Result T E) (op : E -> M F)
  : M (Result T F) :=
  if is_ok self then
    v <- value_ref_ self ;;
    ret (Result_from_Ok (mkOk v))
  else
    e <- err_ref_ self ;;
    f <- invoke op e ;;
    ret (Result_from_Err (mkErr f)).

(** [auto or_else(Fn&& op) && -> invoke_result<Fn&&, E&&>]; the result type
    has to be constructible from [Ok<T>]. *)
Definition or_else {T E F} (self : Result T E) (op : E -> M (Result T F))
  : M (Result T F) :=
  if is_ok self then
    v <- value_ref_ self ;;
    ret (Result_from_Ok (mkOk v))
  else
    e <- err_ref_ self ;;
    invoke op e.

(** [auto unwrap_or(T&& alt) && -> T] *)
Definition unwrap_or {T E} (self : Result T E) (alt : T) : M T :=
  if is_ok self then value_ref_ self
  else ret alt.

(** [auto unwrap_or_else(Fn&& op) && -> T] *)
Definition unwrap_or_else {T E} (self : Result T E) (op : E -> M T) : M T :=
  if is_ok self then value_ref_ self
  else
    e <- err_ref_ self ;;
    invoke op e.

(** [auto unwrap() && -> T] *)
Definition unwrap {T E} (self : Result T E) : M T :=
  (if is_err self then
     e <- err_ref_ self ;;
     internal.result.no_value e
   else ret tt) ;;
  value_ref_ self.

(** [auto expect(std::string_view msg) && -> T] *)
Definition expect {T E} (self : Result T E) (msg : string) : M T :=
  (if is_err self then
     e <- err_ref_ self ;;
     internal.result.expect_value_failed msg e
   else ret tt) ;;
  value_ref_ self.

(** [auto unwrap_err() && -> E] *)
Definition unwrap_err {T E} (self : Result T E) : M E :=
  (if is_ok self then
     v <- value_ref_ self ;;
     internal.result.no_err v
   else ret tt) ;;
  err_ref_ self.

(** [auto expect_err(std::string_view msg) && -> E] *)
Definition expect_err {T E} (self : Result T E) (msg : string) : M E :=
  (if is_ok self then
     v <- value_ref_ self ;;
     internal.result.expect_err_failed msg v
   else ret tt) ;;
  err_ref_ self.

(** [auto unwrap_or_default() && -> T requires default_constructible<T>] *)
Definition unwrap_or_default {T E} `{default_constructible T}
  (self : Result T E) : M T :=
  if is_ok self then value_ref_ self
  else ret default_value.

(** [auto match(OkFn&& ok_fn, ErrFn&& err_fn) &&
      -> invoke_result<OkFn&&, T&&>] *)
Definition match_ {T E R} (self : Result T E) (ok_fn : T -> M R)
  (err_fn : E -> M R) : M R :=
  if is_ok self then
    v <- value_ref_ self ;;
    invoke ok_fn v
  else
    e <- err_ref_ self ;;
    invoke err_fn e.

(** [auto clone() const -> Result<T, E>
      requires copy_constructible<T> && copy_constructible<E>] *)
Definition clone {T E} `{copy_constructible T} `{copy_constructible E}
  (self : Result T E) : M (Result T E) :=
  if is_ok self then
    v <- value_ref_ self ;;
    ret (Result_from_Ok (mkOk (copy v)))
  else
    e <- err_ref_ self ;;
    ret (Result_from_Err (mkErr (copy e))).

End Result.

(** ** Free functions and propagation macros *)

(** [make_some(T value) -> Option<T>]:
    [return Some<T>(std::forward<T>(value));] *)
Definition make_some {T} (value : T) : Option T :=
  Option_from_Some (mkSome value).

(** [make_none<T>() -> Option<T>]: [return None;] *)
Definition make_none {T} : Option T := Option_from_None None.

(** [make_ok<T, E>(T value) -> Result<T, E>]:
    [return Ok<T>(std::forward<T>(value));] *)
Definition make_ok {T E} (value : T) : Result T E :=
  Result_from_Ok (mkOk value).

(** [make_err<T, E>(E err) -> Result<T, E>]:
    [return Err<E>(std::forward<E>(err));] *)
Definition make_err {T E} (err : E) : Result T E :=
  Result_from_Err (mkErr err).

(** [TRY_OK(identifier, result_expr)], followed by the rest of the
    enclosing function as the continuation [rest] that receives
    [identifier].  [return_Err] is the conversion from [Err<error_type>]
    to the return type of the enclosing function that the macro's
    [return Err<...>(...)] relies on. *)
Definition TRY_OK {T E R} (return_Err : Err E -> R)
  (result_expr : M (Result T E)) (rest : T -> M R) : M R :=
  tmp <- result_expr ;;
  if Result.is_err tmp then
    e <- Result.unwrap_err tmp ;;
    ret (return_Err (mkErr e))
  else
    identifier <- Result.unwrap tmp ;;
    rest identifier.

(** [TRY_SOME(identifier, option_expr)], followed by the rest of the
    enclosing function; [return_None] is the conversion from [NoneType] to
    its return type that [return stx::None] relies on. *)
Definition TRY_SOME {T R} (return_None : NoneType -> R)
  (option_expr : M (Option T)) (rest : T -> M R) : M R :=
  tmp <- option_expr ;;
  if Option.is_none tmp then ret (return_None None)
  else
    identifier <- Option.unwrap tmp ;;
    rest identifier.

(** ** Properties of runs *)

(** A computation is fatal when, from every trace, it ends by terminating
    the process after entering the panic core exactly once more. *)
Definition fatal {A} (m : M A) : Prop :=
  forall tr,
    fst (m tr) = Terminated /\
    count_panics (snd (m tr)) = S (count_panics tr).

(** The union member a well-formed [Result] keeps alive. *)
Definition member_of {T E} (r : Result T E) : Member :=
  if Result.is_ok r then storage_value else storage_err.

(** "The outgoing payload of the correct type is destructed before the
    incoming payload is constructed, and afterwards the target holds the
    right-hand side's prior variant and payload": the assignment returns,
    its events contain the destruction of the target's live member and,
    later, the construction in the target of the member the right-hand side
    keeps alive, and the target ends up as the right-hand side was. *)
Definition destructs_then_constructs {T E}
  `{MoveConstructible T} `{MoveConstructible E} (self rhs : Result T E) : Prop :=
  exists self' rhs' pre mid post,
    Result.operator_assign self rhs []
      = (Returned (self', rhs'),
         pre ++ EvDestroy this_ (member_of self)
             :: mid ++ EvConstruct this_ (member_of rhs) :: post) /\
    self' = rhs.

(** A callable without effects: it returns [h x] and leaves the trace. *)
Definition pure_fn {A B} (h : A -> B) : A -> M B := fun a => ret (h a).

Fixpoint count_destroys (tr : Trace) : nat :=
  match tr with
  | [] => 0
  | EvDestroy _ _ :: tr' => S (count_destroys tr')
  | _ :: tr' => count_destroys tr'
  end.

Fixpoint count_constructs (tr : Trace) : nat :=
  match tr with
  | [] => 0
  | EvConstruct _ _ :: tr' => S (count_constructs tr')
  | _ :: tr' => count_constructs tr'
  end.

(** The number of payloads an object keeps alive. *)
Definition Option_live {T} (o : Option T) : nat :=
  match Option_union o with
  | OptionUnion.inactive => 0
  | OptionUnion.storage_value_ _ => 1
  end.

Definition Result_live {T E} (r : Result T E) : nat :=
  match Result_union r with
  | ResultUnion.inactive => 0
  | _ => 1
  end.

(** [{ a = std::move(b); }] with [a] and [b] going out of scope after the
    assignment: the assignment, then the destructor of each object. *)
Definition Option_assign_scope {T} `{MoveConstructible T} (a b : Option T)
  : M (Option T * Option T) :=
  '(a, b) <- Option.operator_assign a b ;;
  b <- Option.destructor b ;;
  a <- Option.destructor a ;;
  ret (a, b).

Definition Result_assign_scope {T E}
  `{MoveConstructible T} `{MoveConstructible E} (a b : Result T E)
  : M (Result T E * Result T E) :=
  '(a, b) <- Result.operator_assign a b ;;
  b <- Result.destructor b ;;
  a <- Result.destructor a ;;
  ret (a, b).

(** * Theorems *)

Lemma count_panics_app (tr tr' : Trace) :
  count_panics (tr ++ tr') = count_panics tr + count_panics tr'.
Proof.
  induction tr as [| e tr IH]; [reflexivity |].
  destruct e; cbn; rewrite IH; reflexivity.
Qed.

(** Every well-formed [Option] is one of the two states of the
    specification. *)
Lemma Option_wf_inv {T} (o : Option T) :
  Option.wf o -> o = Absent \/ exists v, o = Present v.
Proof.
  destruct o as [[| v] [|]]; unfold Option.wf; cbn; intros Hwf;
    try discriminate.
  - left; reflexivity.
  - right; exists v; reflexivity.
Qed.

Lemma Result_wf_inv {T E} (r : Result T E) :
  Result.wf r -> (exists v, r = Success v) \/ (exists e, r = Failure e).
Proof.
  destruct r as [[|] [| v | e]]; unfold Result.wf; cbn; intros Hwf;
    try discriminate.
  - left; exists v; reflexivity.
  - right; exists e; reflexivity.
Qed.

(** The move constructor rebuilds a well-formed operand as it was. *)
Lemma Result_move_ctor_wf {T E} (r : Result T E) (tr : Trace) :
  Result.wf r ->
  exists tr', Result.move_ctor r tr = (Returned r, tr') /\
              count_panics tr' = count_panics tr.
Proof.
  intros Hwf. destruct (Result_wf_inv r Hwf) as [[v ->] | [e ->]]; cbn;
    (eexists; split; [reflexivity | rewrite count_panics_app; cbn; lia]).
Qed.

(** On the live variant the accessors return the payload and the panic core
    is not entered. *)
Lemma accessors_on_live_variant {T E} (v : T) (e : E) (tr : Trace) :
  Option.value (Present v) tr = (Returned v, tr) /\
  Option.unwrap (Present v) tr = (Returned v, tr) /\
  Result.err_value (@Failure T E e) tr = (Returned e, tr).
Proof.
  repeat split.
Qed.

(** On the live variant [and_then] calls its argument once, on the payload. *)
Lemma and_then_on_live_variant {T E U R}
  (f : T -> M (Option U)) (g : T -> M R) (v : T) (tr : Trace) :
  Option.and_then (Present v) f tr = f v (tr ++ [EvInvoke]) /\
  Result.and_then (@Success T E v) g tr
    = (r <- g v ;; ret (Success r)) (tr ++ [EvInvoke]).
Proof.
  split; reflexivity.
Qed.

(** C1. On an [Option] in the absent state, [value()] and [unwrap()] enter
    the panic core exactly once and do not return; on a [Result] in the
    success state, [err_value()] does the same. *)
Theorem C1_fatal_access {T E} (o : Option T) (r : Result T E) :
  Option.is_none o = true ->
  Result.wf r ->
  Result.is_ok r = true ->
  fatal (Option.value o) /\ fatal (Option.unwrap o) /\ fatal (Result.err_value r).
Proof.
  intros Hnone Hwf Hok.
  destruct o as [u none]; cbn in Hnone; subst none.
  destruct (Result_wf_inv r Hwf) as [[v ->] | [e ->]]; [| discriminate Hok].
  repeat split; cbn; try reflexivity;
    rewrite count_panics_app; cbn; lia.
Qed.

Lemma C1_fatal_access_witness :
  fatal (Option.value (@Absent nat)) /\
  fatal (Option.unwrap (@Absent nat)) /\
  fatal (Result.err_value (@Success nat string 7)).
Proof.
  apply (@C1_fatal_access nat string Absent (Success 7)); reflexivity.
Defined.

(** C9. The abort handler never returns: whatever the message and the
    source location, the call ends in [std::abort()], the process is
    terminated, and no code sequenced after the call is run. *)
Theorem C9_panic_abort_is_terminal
  {SourceLocation B : Type} (info : string) (location : SourceLocation)
  (k : unit -> M B) (tr : Trace) :
  panic_abort info location tr = (Terminated, tr ++ [EvAbort]) /\
  is_returned (fst (panic_abort info location tr)) = false /\
  (x <- panic_abort info location ;; k x) tr = (Terminated, tr ++ [EvAbort]).
Proof.
  repeat split.
Qed.

(** C3. Conversions between [Option] and [Result]:
    [Present(v).ok_or(e) == Success(v)], [Absent.ok_or(e) == Failure(e)],
    [Success(v).ok() == Present(v)], [Failure(e).ok() == Absent] and
    [Failure(e).err() == Present(e)]; none of them has an effect. *)
Theorem C3_option_result_conversions {T E} (v : T) (e : E) (tr : Trace) :
  Option.ok_or (Present v) e tr = (Returned (Success v), tr) /\
  Option.ok_or (@Absent T) e tr = (Returned (Failure e), tr) /\
  Result.ok (@Success T E v) tr = (Returned (Present v), tr) /\
  Result.ok (@Failure T E e) tr = (Returned Absent, tr) /\
  Result.err (@Failure T E e) tr = (Returned (Present e), tr).
Proof.
  repeat split.
Qed.

(** C4. The consuming [AND], [OR] and [XOR] of two options return an option
    that is present exactly when the boolean AND, OR, XOR of the operands'
    presence holds; the result is the second operand for [AND], the first
    present operand for [OR] and the only present operand for [XOR]. *)
Theorem C4_option_truth_tables {T U} (a b : Option T) (c : Option U) (tr : Trace) :
  Option.wf a -> Option.wf b -> Option.wf c ->
  (exists r tr',
      Option.AND a c tr = (Returned r, tr') /\
      Option.is_some r = Option.is_some a && Option.is_some c /\
      (Option.is_some r = true -> r = c)) /\
  (exists r tr',
      Option.OR a b tr = (Returned r, tr') /\
      Option.is_some r = Option.is_some a || Option.is_some b /\
      (Option.is_some a = true -> r = a) /\
      (Option.is_some a = false -> r = b)) /\
  (exists r tr',
      Option.XOR a b tr = (Returned r, tr') /\
      Option.is_some r = xorb (Option.is_some a) (Option.is_some b) /\
      (Option.is_some a = true -> Option.is_some b = false -> r = a) /\
      (Option.is_some a = false -> Option.is_some b = true -> r = b)).
Proof.
  intros Ha Hb Hc.
  destruct (Option_wf_inv a Ha) as [-> | [va ->]];
    destruct (Option_wf_inv b Hb) as [-> | [vb ->]];
    destruct (Option_wf_inv c Hc) as [-> | [vc ->]];
    repeat split; cbn;
    (eexists; eexists; repeat split; try reflexivity; cbn; congruence).
Qed.

Lemma C4_option_truth_tables_witness :
  (exists r tr',
      Option.AND (Present 1) (Present 2%Z) [] = (Returned r, tr') /\
      Option.is_some r = Option.is_some (Present 1) && Option.is_some (Present 2%Z) /\
      (Option.is_some r = true -> r = Present 2%Z)) /\
  (exists r tr',
      Option.OR (Present 1) (@Absent nat) [] = (Returned r, tr') /\
      Option.is_some r = Option.is_some (Present 1) || Option.is_some (@Absent nat) /\
      (Option.is_some (Present 1) = true -> r = Present 1) /\
      (Option.is_some (Present 1) = false -> r = Absent)) /\
  (exists r tr',
      Option.XOR (Present 1) (@Absent nat) [] = (Returned r, tr') /\
      Option.is_some r = xorb (Option.is_some (Present 1)) (Option.is_some (@Absent nat)) /\
      (Option.is_some (Present 1) = true -> Option.is_some (@Absent nat) = false -> r = Present 1) /\
      (Option.is_some (Present 1) = false -> Option.is_some (@Absent nat) = true -> r = Absent)).
Proof.
  apply (@C4_option_truth_tables nat Z (Present 1) Absent (Present 2%Z) []);
    reflexivity.
Defined.

(** C5. [take()] on [Present(v)] leaves the option absent and returns
    [Present(v)]; on [Absent] it leaves it absent and returns [Absent]. *)
Theorem C5_take {T} `{MoveConstructible T} (v : T) (tr : Trace) :
  Option.take (Present v) tr
    = (Returned (Present v, Absent), tr ++ [EvDestroy this_ storage_value]) /\
  Option.take (@Absent T) tr = (Returned (Absent, Absent), tr).
Proof.
  split; reflexivity.
Qed.

(** C6. [replace(x)], in both overloads, on [Present(old)] leaves the
    option [Present(x)] and returns [Present(old)]; on [Absent] it leaves
    the option [Present(x)] and returns [Absent]. *)
Theorem C6_replace {T} (old x : T) (tr : Trace) :
  Option.replace (Present old) x tr
    = (Returned (Present old, Present x), tr ++ [EvSwap storage_value]) /\
  Option.replace Absent x tr
    = (Returned (Absent, Present x), tr ++ [EvConstruct this_ storage_value]) /\
  Option.replace_const_ref (Present old) x tr
    = (Returned (Present old, Present x), tr ++ [EvSwap storage_value]) /\
  Option.replace_const_ref Absent x tr
    = (Returned (Absent, Present x), tr ++ [EvConstruct this_ storage_value]).
Proof.
  repeat split.
Qed.

(** C7. [and_then] short-circuits: on [Absent] it returns [Absent], and on
    a failure it returns the failure with the same payload; in both cases
    the callable is not called, so the trace is left as it was. *)
Theorem C7_and_then_short_circuits {T E U R}
  (f : T -> M (Option U)) (g : T -> M R) (e : E) (tr : Trace) :
  Option.and_then (@Absent T) f tr = (Returned Absent, tr) /\
  Result.and_then (@Failure T E e) g tr = (Returned (Failure e), tr) /\
  count_invocations (snd (Option.and_then (@Absent T) f tr))
    = count_invocations tr /\
  count_invocations (snd (Result.and_then (@Failure T E e) g tr))
    = count_invocations tr.
Proof.
  repeat split.
Qed.

(** C8. [Result::AND] takes a conversion from the left failure type to the
    right one: it returns the right operand when the left is a success,
    and otherwise a failure with the left's converted payload.
    [Result::OR] takes a conversion from the left success type to the right
    one: it returns a success with the left's converted payload when the
    left is a success, and otherwise the right operand. *)
Theorem C8_result_and_or {T E U F}
  `{convertible_to E F} `{convertible_to T U}
  (v : T) (e : E) (right : Result U F) (tr : Trace) :
  Result.wf right ->
  (exists tr', Result.AND (@Success T E v) right tr = (Returned right, tr')) /\
  Result.AND (@Failure T E e) right tr = (Returned (Failure (convert e)), tr) /\
  Result.OR (@Success T E v) right tr = (Returned (Success (convert v)), tr) /\
  (exists tr', Result.OR (@Failure T E e) right tr = (Returned right, tr')).
Proof.
  intros Hwf.
  destruct (Result_move_ctor_wf right tr Hwf) as [tr' [Hmv _]].
  repeat split; try (exists tr'; exact Hmv).
Qed.

Lemma C8_result_and_or_witness :
  (exists tr', Result.AND (@Success nat nat 1) (@Failure nat Z 5%Z) []
               = (Returned (Failure 5%Z), tr')) /\
  Result.AND (@Failure nat nat 2) (@Failure nat Z 5%Z) []
    = (Returned (Failure 2%Z), []) /\
  Result.OR (@Success nat nat 1) (@Failure nat Z 5%Z) []
    = (Returned (Success 1), []) /\
  (exists tr', Result.OR (@Failure nat nat 2) (@Failure nat Z 5%Z) []
               = (Returned (Failure 5%Z), tr')).
Proof.
  exact (@C8_result_and_or nat nat nat Z _ _ 1 2 (Failure 5%Z) [] eq_refl).
Defined.

(** C10. [Option]'s move assignment exchanges the two containers: after
    [a = std::move(b)], [a] is what [b] was and [b] is what [a] was, in
    all four combinations; assigning an absent option to [Present(v)]
    leaves the source [Present(v)]. *)
Theorem C10_option_assignment_exchanges {T} `{MoveConstructible T}
  (a b : Option T) (tr : Trace) :
  Option.wf a -> Option.wf b ->
  (exists tr', Option.operator_assign a b tr = (Returned (b, a), tr')) /\
  (forall v, a = Present v -> b = Absent ->
     Option.operator_assign a b tr
       = (Returned (Absent, Present v),
          tr ++ [EvConstruct rhs_ storage_value; EvDestroy this_ storage_value])).
Proof.
  intros Ha Hb.
  destruct (Option_wf_inv a Ha) as [-> | [va ->]];
    destruct (Option_wf_inv b Hb) as [-> | [vb ->]];
    (split; [eexists; reflexivity |]);
    intros v Hv Hab; try discriminate.
  injection Hv as ->. cbn. rewrite <- app_assoc. reflexivity.
Qed.

Lemma C10_option_assignment_exchanges_witness :
  (exists tr', Option.operator_assign (Present 4) (@Absent nat) []
               = (Returned (Absent, Present 4), tr')) /\
  (forall v, Present 4 = Present v -> @Absent nat = Absent ->
     Option.operator_assign (Present 4) (@Absent nat) []
       = (Returned (Absent, Present v),
          [] ++ [EvConstruct rhs_ storage_value; EvDestroy this_ storage_value])).
Proof.
  apply (@C10_option_assignment_exchanges nat _ (Present 4) Absent []);
    reflexivity.
Defined.

(** C2, as stated, fails when both sides hold a success: the assignment
    is a single [std::swap], the target's payload is handed to the
    right-hand side and is not destructed. *)
Lemma C2_same_variant_counterexample :
  ~ destructs_then_constructs (@Success nat string 1) (Success 2).
Proof.
  intros (self' & rhs' & pre & mid & post & Hrun & _).
  cbn in Hrun. injection Hrun as _ _ Htr.
  destruct pre as [| e [| e' pre]]; discriminate Htr.
Qed.

(** C2, amended. [Result<T, E>]'s move assignment handles the four
    combinations of variants.  When the variants differ, the target's
    payload, of the member its discriminant names, is destructed and then
    the incoming payload is constructed in the target.  When the variants
    agree, the two payloads are exchanged by one [std::swap]: the
    assignment itself destructs and constructs neither union member.  In
    all four, the target ends up with the variant and payload the
    right-hand side had. *)
Theorem C2_result_assignment {T E}
  `{MoveConstructible T} `{MoveConstructible E}
  (v v' : T) (e e' : E) (tr : Trace) :
  Result.operator_assign (@Success T E v) (@Success T E v') tr
    = (Returned (@Success T E v', @Success T E v),
       tr ++ [EvSwap storage_value]) /\
  Result.operator_assign (@Success T E v) (@Failure T E e') tr
    = (Returned (@Failure T E e', @Failure T E (moved_from e')),
       tr ++ [EvDestroy this_ storage_value; EvConstruct this_ storage_err]) /\
  Result.operator_assign (@Failure T E e) (@Success T E v') tr
    = (Returned (@Success T E v', @Success T E (moved_from v')),
       tr ++ [EvDestroy this_ storage_err; EvConstruct this_ storage_value]) /\
  Result.operator_assign (@Failure T E e) (@Failure T E e') tr
    = (Returned (@Failure T E e', @Failure T E e),
       tr ++ [EvSwap storage_err]).
Proof.
  repeat split; cbn; rewrite <- ?app_assoc; reflexivity.
Qed.

(** In the two combinations C2 gets right, the claim's own wording holds. *)
Lemma destructs_then_constructs_across_variants {T E}
  `{MoveConstructible T} `{MoveConstructible E} (v : T) (e : E) :
  destructs_then_constructs (@Success T E v) (Failure e) /\
  destructs_then_constructs (@Failure T E e) (Success v).
Proof.
  split; do 2 eexists; exists [], [], []; split; reflexivity.
Qed.

(** * Further properties of the containers *)

Lemma count_destroys_app (tr tr' : Trace) :
  count_destroys (tr ++ tr') = count_destroys tr + count_destroys tr'.
Proof.
  induction tr as [| e tr IH]; [reflexivity |].
  destruct e; cbn; rewrite IH; reflexivity.
Qed.

Lemma count_constructs_app (tr tr' : Trace) :
  count_constructs (tr ++ tr') = count_constructs tr + count_constructs tr'.
Proof.
  induction tr as [| e tr IH]; [reflexivity |].
  destruct e; cbn; rewrite IH; reflexivity.
Qed.

Ltac option_cases o H :=
  let v := fresh "v" in
  destruct (Option_wf_inv o H) as [-> | [v ->]].

(** Closes a goal from a hypothesis equating two container states. *)
Ltac by_variant :=
  intros;
  match goal with
  | Hv : _ = _ |- _ =>
      first [ discriminate Hv
            | reflexivity
            | injection Hv; intros; subst; reflexivity ]
  end.

Ltac result_cases r H :=
  let v := fresh "v" in
  let e := fresh "e" in
  destruct (Result_wf_inv r H) as [[v ->] | [e ->]].

(** X1. [Option::map] is a functor on well-formed options: mapping the
    identity gives the option back, and mapping [f] and then [g] gives what
    mapping their composition gives. *)
Theorem Option_map_functor {A B C} (f : A -> B) (g : B -> C)
  (o : Option A) (tr : Trace) :
  Option.wf o ->
  (exists tr', Option.map o (pure_fn (fun x => x)) tr = (Returned o, tr')) /\
  (exists r rr tr1 tr2 tr3,
      Option.map o (pure_fn f) tr = (Returned r, tr1) /\
      Option.map r (pure_fn g) tr1 = (Returned rr, tr2) /\
      Option.map o (pure_fn (fun x => g (f x))) tr = (Returned rr, tr3) /\
      Option.is_some rr = Option.is_some o).
Proof.
  intros Hwf. option_cases o Hwf; split;
    repeat eexists; reflexivity.
Qed.

Lemma Option_map_functor_witness :
  (exists tr', Option.map (Present 3) (pure_fn (fun x => x)) []
               = (Returned (Present 3), tr')) /\
  (exists r rr tr1 tr2 tr3,
      Option.map (Present 3) (pure_fn S) [] = (Returned r, tr1) /\
      Option.map r (pure_fn Z.of_nat) tr1 = (Returned rr, tr2) /\
      Option.map (Present 3) (pure_fn (fun x => Z.of_nat (S x))) []
        = (Returned rr, tr3) /\
      Option.is_some rr = Option.is_some (Present 3)).
Proof.
  apply (@Option_map_functor nat nat Z S Z.of_nat (Present 3) []).
  reflexivity.
Defined.

(** X2. On well-formed results [Result::map] and [Result::map_err] act on
    separate sides: each maps the identity to the result itself, and
    mapping the success side and then the failure side gives the same
    result as the other order. *)
Theorem Result_map_map_err_commute {T E R F} (f : T -> R) (g : E -> F)
  (r : Result T E) (tr : Trace) :
  Result.wf r ->
  (exists tr', Result.map r (pure_fn (fun x => x)) tr = (Returned r, tr')) /\
  (exists tr', Result.map_err r (pure_fn (fun x => x)) tr = (Returned r, tr')) /\
  (exists r1 r2 rr tr1 tr2 tr3 tr4,
      Result.map r (pure_fn f) tr = (Returned r1, tr1) /\
      Result.map_err r1 (pure_fn g) tr1 = (Returned rr, tr2) /\
      Result.map_err r (pure_fn g) tr = (Returned r2, tr3) /\
      Result.map r2 (pure_fn f) tr3 = (Returned rr, tr4) /\
      Result.is_ok rr = Result.is_ok r).
Proof.
  intros Hwf. result_cases r Hwf; repeat split;
    repeat eexists; reflexivity.
Qed.

Lemma Result_map_map_err_commute_witness :
  (exists tr', Result.map (@Failure nat nat 4) (pure_fn (fun x => x)) []
               = (Returned (Failure 4), tr')) /\
  (exists tr', Result.map_err (@Failure nat nat 4) (pure_fn (fun x => x)) []
               = (Returned (Failure 4), tr')) /\
  (exists r1 r2 rr tr1 tr2 tr3 tr4,
      Result.map (@Failure nat nat 4) (pure_fn S) [] = (Returned r1, tr1) /\
      Result.map_err r1 (pure_fn Z.of_nat) tr1 = (Returned rr, tr2) /\
      Result.map_err (@Failure nat nat 4) (pure_fn Z.of_nat) []
        = (Returned r2, tr3) /\
      Result.map r2 (pure_fn S) tr3 = (Returned rr, tr4) /\
      Result.is_ok rr = Result.is_ok (@Failure nat nat 4)).
Proof.
  apply (@Result_map_map_err_commute nat nat nat Z S Z.of_nat (Failure 4) []).
  reflexivity.
Defined.

(** X3. [Result::and_then] is [Result::map]: it wraps whatever the callable
    returns in a success, so on a well-formed result it keeps the variant
    of its operand whatever the callable returns. *)
Theorem Result_and_then_is_map {T E R} (h : T -> R)
  (self : Result T E) (tr : Trace) :
  Result.wf self ->
  (forall op : T -> M R, Result.and_then self op tr = Result.map self op tr) /\
  (exists r tr',
      Result.and_then self (pure_fn h) tr = (Returned r, tr') /\
      Result.is_ok r = Result.is_ok self /\
      (forall v, self = Success v -> r = Success (h v))).
Proof.
  intros Hwf. split; [reflexivity |].
  result_cases self Hwf; do 2 eexists; repeat split.
  - intros v0 Hv. injection Hv as ->. reflexivity.
  - intros v0 Hv. discriminate Hv.
Qed.

Lemma Result_and_then_is_map_witness :
  (forall op : nat -> M (Result nat string),
      Result.and_then (@Success nat string 2) op []
      = Result.map (@Success nat string 2) op []) /\
  (exists r tr',
      Result.and_then (@Success nat string 2)
        (pure_fn (fun _ => @Failure nat string "no"%string)) []
        = (Returned r, tr') /\
      Result.is_ok r = Result.is_ok (@Success nat string 2) /\
      (forall v, @Success nat string 2 = Success v ->
                 r = Success (@Failure nat string "no"%string))).
Proof.
  apply (@Result_and_then_is_map nat string (Result nat string)
           (fun _ => Failure "no"%string) (Success 2) []).
  reflexivity.
Defined.

(** X4. [filter] and [filter_not] split a well-formed option: under the
    same effect-free predicate each returns the option itself or [None],
    a present option is kept by exactly one of them, an absent one by
    neither, and [OR] of the two results is the option one started from. *)
Theorem Option_filter_partition {T} (p : T -> bool) (o : Option T) (tr : Trace) :
  Option.wf o ->
  exists r1 r2 tr1 tr2 tr3,
    Option.filter o (pure_fn p) tr = (Returned r1, tr1) /\
    Option.filter_not o (pure_fn p) tr = (Returned r2, tr2) /\
    (r1 = o \/ r1 = Absent) /\
    (r2 = o \/ r2 = Absent) /\
    xorb (Option.is_some r1) (Option.is_some r2) = Option.is_some o /\
    Option.OR r1 r2 tr = (Returned o, tr3).
Proof.
  intros Hwf. option_cases o Hwf.
  - exists Absent, Absent. do 3 eexists. repeat split; auto.
  - unfold Option.filter, Option.filter_not, pure_fn. cbn.
    destruct (p v) eqn:Hp; cbn.
    + exists (Present v), Absent. do 3 eexists. repeat split; auto.
    + exists Absent, (Present v). do 3 eexists. repeat split; auto.
Qed.

Lemma Option_filter_partition_witness :
  exists r1 r2 tr1 tr2 tr3,
    Option.filter (Present 4) (pure_fn Nat.even) [] = (Returned r1, tr1) /\
    Option.filter_not (Present 4) (pure_fn Nat.even) [] = (Returned r2, tr2) /\
    (r1 = Present 4 \/ r1 = Absent) /\
    (r2 = Present 4 \/ r2 = Absent) /\
    xorb (Option.is_some r1) (Option.is_some r2) = Option.is_some (Present 4) /\
    Option.OR r1 r2 [] = (Returned (Present 4), tr3).
Proof.
  apply (@Option_filter_partition nat Nat.even (Present 4) []).
  reflexivity.
Defined.

(** X5. A well-formed option survives the trip through a result:
    [o.ok_or(e).ok()] is [o], and so is [o.ok_or_else(fn).ok()] for a
    callable without effects; [o.ok_or(e).err()] is present, with payload
    [e], exactly when [o] is absent. *)
Theorem Option_ok_or_ok_round_trip {T E} (o : Option T) (e : E) (tr : Trace) :
  Option.wf o ->
  exists r r' oe tr1 tr2,
    Option.ok_or o e tr = (Returned r, tr) /\
    Result.wf r /\
    Result.ok r tr = (Returned o, tr) /\
    Option.ok_or_else o (pure_fn (fun _ => e)) tr = (Returned r', tr1) /\
    Result.ok r' tr1 = (Returned o, tr2) /\
    Result.err r tr = (Returned oe, tr) /\
    oe = (if Option.is_none o then Present e else Absent).
Proof.
  intros Hwf. option_cases o Hwf; repeat eexists; reflexivity.
Qed.

Lemma Option_ok_or_ok_round_trip_witness :
  exists r r' oe tr1 tr2,
    Option.ok_or (@Absent nat) 9 [] = (Returned r, []) /\
    Result.wf r /\
    Result.ok r [] = (Returned Absent, []) /\
    Option.ok_or_else (@Absent nat) (pure_fn (fun _ => 9)) [] = (Returned r', tr1) /\
    Result.ok r' tr1 = (Returned Absent, tr2) /\
    Result.err r [] = (Returned oe, []) /\
    oe = (if Option.is_none (@Absent nat) then Present 9 else Absent).
Proof.
  apply (@Option_ok_or_ok_round_trip nat nat Absent 9 []). reflexivity.
Defined.

(** X6. For a well-formed result exactly one of [ok()] and [err()] is
    present, both are well-formed options, and [r.ok().ok_or(e)] is [r]
    when [r] is a success and [Failure(e)] otherwise (the failure payload
    of [r] is dropped by [ok()]). *)
Theorem Result_ok_err_exclusive {T E} (r : Result T E) (e : E) (tr : Trace) :
  Result.wf r ->
  exists a b back,
    Result.ok r tr = (Returned a, tr) /\
    Result.err r tr = (Returned b, tr) /\
    Option.wf a /\ Option.wf b /\
    Option.is_some a = Result.is_ok r /\
    Option.is_some b = Result.is_err r /\
    xorb (Option.is_some a) (Option.is_some b) = true /\
    Option.ok_or a e tr = (Returned back, tr) /\
    back = (if Result.is_ok r then r else Failure e).
Proof.
  intros Hwf. result_cases r Hwf; repeat eexists; reflexivity.
Qed.

Lemma Result_ok_err_exclusive_witness :
  exists a b back,
    Result.ok (@Failure nat string "x"%string) [] = (Returned a, []) /\
    Result.err (@Failure nat string "x"%string) [] = (Returned b, []) /\
    Option.wf a /\ Option.wf b /\
    Option.is_some a = Result.is_ok (@Failure nat string "x"%string) /\
    Option.is_some b = Result.is_err (@Failure nat string "x"%string) /\
    xorb (Option.is_some a) (Option.is_some b) = true /\
    Option.ok_or a "y"%string [] = (Returned back, []) /\
    back = (if Result.is_ok (@Failure nat string "x"%string)
            then Failure "x"%string else Failure "y"%string).
Proof.
  apply (@Result_ok_err_exclusive nat string (Failure "x"%string) "y"%string []).
  reflexivity.
Defined.

(** X7. When [==] on the payload decides equality, [Option::operator==]
    decides equality of well-formed options: it returns [true] exactly when
    both are absent or both are present with the same payload, and it has
    no effect. *)
Theorem Option_operator_eq_decides {T} `{equality_comparable T T}
  (a b : Option T) (tr : Trace) :
  (forall x y : T, equal x y = true <-> x = y) ->
  Option.wf a -> Option.wf b ->
  exists c, Option.operator_eq a b tr = (Returned c, tr) /\
            (c = true <-> a = b).
Proof.
  intros Heq Ha Hb. option_cases a Ha; option_cases b Hb; cbn.
  - exists true; split; [reflexivity | tauto].
  - exists false; split; [reflexivity |]. split; discriminate.
  - exists false; split; [reflexivity |]. split; discriminate.
  - exists (equal v v0); split; [reflexivity |].
    rewrite Heq. split; [intros -> | intros Hp; injection Hp]; auto.
Qed.

Lemma Option_operator_eq_decides_witness :
  exists c, Option.operator_eq (Present 3) (Present 3) [] = (Returned c, []) /\
            (c = true <-> Present 3 = Present 3).
Proof.
  apply (@Option_operator_eq_decides nat _ (Present 3) (Present 3) []).
  - intros x y. apply Nat.eqb_eq.
  - reflexivity.
  - reflexivity.
Defined.

(** X8. When [==] on both payload types decides equality,
    [Result::operator==(Result const&)] decides equality of well-formed
    results; a success never equals a failure. *)
Theorem Result_operator_eq_decides {T E}
  `{equality_comparable T T} `{equality_comparable E E}
  (a b : Result T E) (tr : Trace) :
  (forall x y : T, equal x y = true <-> x = y) ->
  (forall x y : E, equal x y = true <-> x = y) ->
  Result.wf a -> Result.wf b ->
  exists c, Result.operator_eq a b tr = (Returned c, tr) /\
            (c = true <-> a = b) /\
            (Result.is_ok a <> Result.is_ok b -> c = false).
Proof.
  intros HT HE Ha Hb. result_cases a Ha; result_cases b Hb; cbn.
  - exists (equal v v0); split; [reflexivity |]. split; [| congruence].
    rewrite HT. split; [intros -> | intros Hp; injection Hp]; auto.
  - exists false; repeat split; discriminate.
  - exists false; repeat split; discriminate.
  - exists (equal e e0); split; [reflexivity |]. split; [| congruence].
    rewrite HE. split; [intros -> | intros Hp; injection Hp]; auto.
Qed.

Lemma Result_operator_eq_decides_witness :
  exists c, Result.operator_eq (@Success nat string 1) (Failure "1"%string) []
            = (Returned c, []) /\
            (c = true <-> @Success nat string 1 = Failure "1"%string) /\
            (Result.is_ok (@Success nat string 1)
               <> Result.is_ok (@Failure nat string "1"%string) -> c = false).
Proof.
  apply (@Result_operator_eq_decides nat string _ _
           (Success 1) (Failure "1"%string) []).
  - intros x y. apply Nat.eqb_eq.
  - intros x y. apply String.eqb_eq.
  - reflexivity.
  - reflexivity.
Defined.

(** X9. Comparing a container with a wrapper is comparing it with the
    container built from that wrapper: [o == Some(v)] is [o == Option(Some(v))],
    [o == None] is [o == Option(None)], [r == Ok(v)] and [r == Err(e)] are
    [r == Result(Ok(v))] and [r == Result(Err(e))]; and [contains(x)],
    [contains_err(x)] are the comparisons with [Some(x)]/[Ok(x)] and
    [Err(x)]. *)
Theorem comparisons_with_wrappers {T E}
  `{equality_comparable T T} `{equality_comparable E E}
  (o : Option T) (r : Result T E) (v : T) (e : E) (tr : Trace) :
  Option.operator_eq_Some o (mkSome v) tr
    = Option.operator_eq o (Option_from_Some (mkSome v)) tr /\
  Option.operator_eq_None o None tr
    = Option.operator_eq o (Option_from_None None) tr /\
  Option.contains o v tr = Option.operator_eq_Some o (mkSome v) tr /\
  Result.operator_eq_Ok r (mkOk v) tr
    = Result.operator_eq r (Result_from_Ok (mkOk v)) tr /\
  Result.operator_eq_Err r (mkErr e) tr
    = Result.operator_eq r (Result_from_Err (mkErr e)) tr /\
  Result.contains r v tr = Result.operator_eq_Ok r (mkOk v) tr /\
  Result.contains_err r e tr = Result.operator_eq_Err r (mkErr e) tr.
Proof.
  destruct o as [uo [|]], r as [[|] ur]; cbn; repeat split;
    try (destruct uo; reflexivity);
    try (destruct ur; reflexivity).
Qed.

(** X10. On a well-formed option the defaulting accessors agree and never
    enter the panic core: [unwrap_or(alt)], [unwrap_or_else] with a
    callable returning [alt], [map_or] and [map_or_else] with the identity
    and [OR(Some(alt))] followed by [unwrap()] all return the payload when
    there is one and [alt] otherwise; [unwrap_or_default()] is
    [unwrap_or(T())]. *)
Theorem Option_unwrap_or_family {T} `{default_constructible T}
  (o : Option T) (alt : T) (tr : Trace) :
  Option.wf o ->
  exists x tr1 tr2 tr3,
    Option.unwrap_or o alt tr = (Returned x, tr) /\
    Option.unwrap_or_else o (pure_fn (fun _ => alt)) tr = (Returned x, tr1) /\
    Option.map_or o (pure_fn (fun v => v)) alt tr = (Returned x, tr2) /\
    Option.map_or_else o (pure_fn (fun v => v)) (pure_fn (fun _ => alt)) tr
      = (Returned x, tr ++ [EvInvoke]) /\
    (r <- Option.OR o (Present alt) ;; Option.unwrap r) tr = (Returned x, tr3) /\
    count_panics tr1 = count_panics tr /\
    count_panics tr2 = count_panics tr /\
    count_panics tr3 = count_panics tr /\
    (forall v, o = Present v -> x = v) /\
    (o = Absent -> x = alt) /\
    Option.unwrap_or_default o tr = Option.unwrap_or o default_value tr.
Proof.
  intros Hwf. option_cases o Hwf.
  - exists alt. do 3 eexists.
    do 5 (split; [reflexivity |]).
    repeat split; cbn; rewrite ?count_panics_app; cbn; try lia.
    intros v Hv; discriminate Hv.
  - exists v. do 3 eexists.
    do 5 (split; [reflexivity |]).
    repeat split; cbn; rewrite ?count_panics_app; cbn; try lia.
    + intros v0 Hv; injection Hv; auto.
    + intros Hv; discriminate Hv.
Qed.

Lemma Option_unwrap_or_family_witness :
  exists x tr1 tr2 tr3,
    Option.unwrap_or (@Absent nat) 5 [] = (Returned x, []) /\
    Option.unwrap_or_else (@Absent nat) (pure_fn (fun _ => 5)) []
      = (Returned x, tr1) /\
    Option.map_or (@Absent nat) (pure_fn (fun v => v)) 5 [] = (Returned x, tr2) /\
    Option.map_or_else (@Absent nat) (pure_fn (fun v => v)) (pure_fn (fun _ => 5)) []
      = (Returned x, [] ++ [EvInvoke]) /\
    (r <- Option.OR (@Absent nat) (Present 5) ;; Option.unwrap r) []
      = (Returned x, tr3) /\
    count_panics tr1 = count_panics [] /\
    count_panics tr2 = count_panics [] /\
    count_panics tr3 = count_panics [] /\
    (forall v, @Absent nat = Present v -> x = v) /\
    (@Absent nat = Absent -> x = 5) /\
    Option.unwrap_or_default (@Absent nat) []
      = Option.unwrap_or (@Absent nat) default_value [].
Proof.
  apply (@Option_unwrap_or_family nat _ Absent 5 []). reflexivity.
Defined.

(** X11. [match] is total on well-formed containers: with callables that
    return, [Option::match] and [Result::match] return, call exactly one of
    their two callables, once, on the live payload, and never enter the
    panic core. *)
Theorem match_is_total {T E R} (f : T -> R) (g : unit -> R) (h : E -> R)
  (o : Option T) (r : Result T E) (tr : Trace) :
  Option.wf o -> Result.wf r ->
  (exists x,
      Option.match_ o (pure_fn f) (pure_fn g) tr = (Returned x, tr ++ [EvInvoke]) /\
      (forall v, o = Present v -> x = f v) /\
      (o = Absent -> x = g tt)) /\
  (exists y,
      Result.match_ r (pure_fn f) (pure_fn h) tr = (Returned y, tr ++ [EvInvoke]) /\
      (forall v, r = Success v -> y = f v) /\
      (forall e, r = Failure e -> y = h e)).
Proof.
  intros Ho Hr. option_cases o Ho; result_cases r Hr;
    (split; eexists; (split; [reflexivity |]); split; by_variant).
Qed.

Lemma match_is_total_witness :
  (exists x,
      Option.match_ (Present 2) (pure_fn S) (pure_fn (fun _ => 0)) []
        = (Returned x, [] ++ [EvInvoke]) /\
      (forall v, Present 2 = Present v -> x = S v) /\
      (Present 2 = Absent -> x = 0)) /\
  (exists y,
      Result.match_ (@Failure nat nat 7) (pure_fn S) (pure_fn Nat.pred) []
        = (Returned y, [] ++ [EvInvoke]) /\
      (forall v, @Failure nat nat 7 = Success v -> y = S v) /\
      (forall e, @Failure nat nat 7 = Failure e -> y = Nat.pred e)).
Proof.
  apply (@match_is_total nat nat nat S (fun _ => 0) Nat.pred
           (Present 2) (Failure 7) []); reflexivity.
Defined.

(** X12. [take()] and [replace()] in sequence, on a well-formed option:
    [take()] returns the option as it was and leaves [None]; a second
    [take()] returns [None]; after [replace(x)], [take()] returns
    [Some(x)]; and a second [replace(y)] returns [Some(x)] and leaves
    [Some(y)]. *)
Theorem Option_take_replace_sequences {T} `{MoveConstructible T}
  (o : Option T) (x y : T) (tr : Trace) :
  Option.wf o ->
  (exists tr',
      ('(t1, o1) <- Option.take o ;;
       '(t2, o2) <- Option.take o1 ;;
       ret (t1, t2, o2)) tr = (Returned (o, Absent, Absent), tr')) /\
  (exists tr',
      ('(old, o1) <- Option.replace o x ;;
       '(t, o2) <- Option.take o1 ;;
       ret (old, t, o2)) tr = (Returned (o, Present x, Absent), tr')) /\
  (exists tr',
      ('(old, o1) <- Option.replace o x ;;
       '(old', o2) <- Option.replace o1 y ;;
       ret (old, old', o2)) tr = (Returned (o, Present x, Present y), tr')).
Proof.
  intros Hwf. option_cases o Hwf; repeat split; eexists; reflexivity.
Qed.

Lemma Option_take_replace_sequences_witness :
  (exists tr',
      ('(t1, o1) <- Option.take (Present 1) ;;
       '(t2, o2) <- Option.take o1 ;;
       ret (t1, t2, o2)) [] = (Returned (Present 1, Absent, Absent), tr')) /\
  (exists tr',
      ('(old, o1) <- Option.replace (Present 1) 2 ;;
       '(t, o2) <- Option.take o1 ;;
       ret (old, t, o2)) [] = (Returned (Present 1, Present 2, Absent), tr')) /\
  (exists tr',
      ('(old, o1) <- Option.replace (Present 1) 2 ;;
       '(old', o2) <- Option.replace o1 3 ;;
       ret (old, old', o2)) [] = (Returned (Present 1, Present 2, Present 3), tr')).
Proof.
  apply (@Option_take_replace_sequences nat _ (Present 1) 2 3 []).
  reflexivity.
Defined.

(** X13. Construction establishes the invariant that the discriminant
    names the live member: the converting constructors and [make_some],
    [make_none], [make_ok], [make_err] build well-formed objects, and the
    move constructors rebuild a well-formed operand as it was. *)
Theorem constructors_establish_invariant {T E}
  (v : T) (e : E) (o : Option T) (r : Result T E) (tr : Trace) :
  Option.wf o -> Result.wf r ->
  Option.wf (make_some v) /\ Option.is_some (make_some v) = true /\
  Option.wf (@make_none T) /\ Option.is_none (@make_none T) = true /\
  Result.wf (@make_ok T E v) /\ Result.is_ok (@make_ok T E v) = true /\
  Result.wf (@make_err T E e) /\ Result.is_err (@make_err T E e) = true /\
  (exists tr', Option.move_ctor o tr = (Returned o, tr')) /\
  (exists tr', Result.move_ctor r tr = (Returned r, tr')).
Proof.
  intros Ho Hr. repeat split.
  - option_cases o Ho; eexists; reflexivity.
  - destruct (Result_move_ctor_wf r tr Hr) as [tr' [Hmv _]].
    exists tr'; exact Hmv.
Qed.

Lemma constructors_establish_invariant_witness :
  Option.wf (make_some 1) /\ Option.is_some (make_some 1) = true /\
  Option.wf (@make_none nat) /\ Option.is_none (@make_none nat) = true /\
  Result.wf (@make_ok nat nat 1) /\ Result.is_ok (@make_ok nat nat 1) = true /\
  Result.wf (@make_err nat nat 2) /\ Result.is_err (@make_err nat nat 2) = true /\
  (exists tr', Option.move_ctor (Present 3) [] = (Returned (Present 3), tr')) /\
  (exists tr', Result.move_ctor (@Failure nat nat 4) []
               = (Returned (Failure 4), tr')).
Proof.
  apply (@constructors_establish_invariant nat nat 1 2
           (Present 3) (Failure 4) []); reflexivity.
Defined.

(** X14. [Result::operator=] keeps the invariant: from well-formed operands
    it returns, both objects are well-formed afterwards, the target is what
    the right-hand side was, and the right-hand side keeps its variant; it
    holds the target's former payload when the variants agreed. *)
Theorem Result_assignment_keeps_invariant {T E}
  `{MoveConstructible T} `{MoveConstructible E}
  (self rhs : Result T E) (tr : Trace) :
  Result.wf self -> Result.wf rhs ->
  exists rhs' tr',
    Result.operator_assign self rhs tr = (Returned (rhs, rhs'), tr') /\
    Result.wf rhs' /\
    Result.is_ok rhs' = Result.is_ok rhs /\
    (Result.is_ok self = Result.is_ok rhs -> rhs' = self).
Proof.
  intros Hs Hr. result_cases self Hs; result_cases rhs Hr;
    do 2 eexists; (split; [reflexivity |]);
    repeat split; cbn; congruence.
Qed.

Lemma Result_assignment_keeps_invariant_witness :
  exists rhs' tr',
    Result.operator_assign (@Success nat string 1) (Failure "late"%string) []
      = (Returned (Failure "late"%string, rhs'), tr') /\
    Result.wf rhs' /\
    Result.is_ok rhs' = Result.is_ok (@Failure nat string "late"%string) /\
    (Result.is_ok (@Success nat string 1)
       = Result.is_ok (@Failure nat string "late"%string) ->
     rhs' = Success 1).
Proof.
  apply (@Result_assignment_keeps_invariant nat string _ _
           (Success 1) (Failure "late"%string) []); reflexivity.
Defined.

(** X15. Payload lifetimes balance across an [Option] assignment: when
    [a = std::move(b)] is followed by the destructors of both objects, the
    run returns (no member is destroyed twice or read after its
    destruction), no payload is left alive, and the destructor calls are
    as many as the payloads alive before plus the placement constructions
    made on the way. *)
Theorem Option_assign_scope_balanced {T} `{MoveConstructible T}
  (a b : Option T) (tr : Trace) :
  Option.wf a -> Option.wf b ->
  exists a' b' tr',
    Option_assign_scope a b tr = (Returned (a', b'), tr') /\
    Option_live a' = 0 /\ Option_live b' = 0 /\
    count_destroys tr' + count_constructs tr
      = count_destroys tr + count_constructs tr' + Option_live a + Option_live b.
Proof.
  intros Ha Hb. option_cases a Ha; option_cases b Hb;
    do 3 eexists; (split; [reflexivity |]); cbn;
    rewrite ?count_destroys_app, ?count_constructs_app; cbn;
    repeat split; lia.
Qed.

Lemma Option_assign_scope_balanced_witness :
  exists a' b' tr',
    Option_assign_scope (Present 1) (@Absent nat) [] = (Returned (a', b'), tr') /\
    Option_live a' = 0 /\ Option_live b' = 0 /\
    count_destroys tr' + count_constructs []
      = count_destroys [] + count_constructs tr'
        + Option_live (Present 1) + Option_live (@Absent nat).
Proof.
  apply (@Option_assign_scope_balanced nat _ (Present 1) Absent []);
    reflexivity.
Defined.

(** X16. Payload lifetimes balance across a [Result] assignment in the same
    way, in all four combinations of variants; the moved-from payload left
    in the right-hand side is destroyed by its destructor. *)
Theorem Result_assign_scope_balanced {T E}
  `{MoveConstructible T} `{MoveConstructible E}
  (a b : Result T E) (tr : Trace) :
  Result.wf a -> Result.wf b ->
  exists a' b' tr',
    Result_assign_scope a b tr = (Returned (a', b'), tr') /\
    Result_live a' = 0 /\ Result_live b' = 0 /\
    count_destroys tr' + count_constructs tr
      = count_destroys tr + count_constructs tr' + Result_live a + Result_live b.
Proof.
  intros Ha Hb. result_cases a Ha; result_cases b Hb;
    do 3 eexists; (split; [reflexivity |]); cbn;
    rewrite ?count_destroys_app, ?count_constructs_app; cbn;
    repeat split; lia.
Qed.

Lemma Result_assign_scope_balanced_witness :
  exists a' b' tr',
    Result_assign_scope (@Success nat string 1) (Failure "e"%string) []
      = (Returned (a', b'), tr') /\
    Result_live a' = 0 /\ Result_live b' = 0 /\
    count_destroys tr' + count_constructs []
      = count_destroys [] + count_constructs tr'
        + Result_live (@Success nat string 1)
        + Result_live (@Failure nat string "e"%string).
Proof.
  apply (@Result_assign_scope_balanced nat string _ _
           (Success 1) (Failure "e"%string) []); reflexivity.
Defined.

(** X17. [Option]'s combinators do not call a callable they have no use
    for, whatever the callable does: on [None], [map], [map_or], [exists],
    [filter] and [filter_not] return without calling theirs; on [Some(v)],
    [or_else], [unwrap_or_else] and [ok_or_else] return without calling
    the alternative. *)
Theorem Option_unused_callables_not_called {T R E}
  (op : T -> M R) (p : T -> M bool) (alt : unit -> M (Option T))
  (alt_t : unit -> M T) (alt_e : unit -> M E) (v : T) (d : R) (tr : Trace) :
  Option.map (@Absent T) op tr = (Returned Absent, tr) /\
  Option.map_or (@Absent T) op d tr = (Returned d, tr) /\
  Option.exists_ (@Absent T) p tr = (Returned false, tr) /\
  Option.filter (@Absent T) p tr = (Returned Absent, tr) /\
  Option.filter_not (@Absent T) p tr = (Returned Absent, tr) /\
  Option.or_else (Present v) alt tr
    = (Returned (Present v), tr ++ [EvConstruct this_ storage_value]) /\
  Option.unwrap_or_else (Present v) alt_t tr = (Returned v, tr) /\
  Option.ok_or_else (Present v) alt_e tr = (Returned (Success v), tr).
Proof.
  repeat split.
Qed.

(** X18. [Result]'s combinators do not call a callable they have no use
    for: on a failure, [map], [map_or] and [exists] return without calling
    theirs and [map] forwards the failure payload; on a success, [map_err],
    [or_else], [unwrap_or_else] and [err_exists] return without calling
    theirs and [map_err] and [or_else] forward the success payload. *)
Theorem Result_unused_callables_not_called {T E R F}
  (op : T -> M R) (p : T -> M bool) (q : E -> M bool)
  (op_e : E -> M F) (alt : E -> M (Result T F)) (alt_t : E -> M T)
  (v : T) (e : E) (d : R) (tr : Trace) :
  Result.map (@Failure T E e) op tr = (Returned (Failure e), tr) /\
  Result.map_or (@Failure T E e) op d tr = (Returned d, tr) /\
  Result.exists_ (@Failure T E e) p tr = (Returned false, tr) /\
  Result.map_err (@Success T E v) op_e tr = (Returned (Success v), tr) /\
  Result.or_else (@Success T E v) alt tr = (Returned (Success v), tr) /\
  Result.unwrap_or_else (@Success T E v) alt_t tr = (Returned v, tr) /\
  Result.err_exists (@Success T E v) q tr = (Returned false, tr).
Proof.
  repeat split.
Qed.

(** X19. [TRY_OK] propagates without panicking: when the expression yields
    a success the rest of the function runs with its payload, and when it
    yields a failure the function returns [Err] of the failure payload and
    the rest is not run; the expression is evaluated once in both cases. *)
Theorem TRY_OK_propagates {T E R} (return_Err : Err E -> R)
  (pre : M unit) (rest : T -> M R) (v : T) (e : E) (tr : Trace) :
  TRY_OK return_Err (pre ;; ret (Success v)) rest tr
    = (pre ;; rest v) tr /\
  TRY_OK return_Err (pre ;; ret (@Failure T E e)) rest tr
    = (pre ;; ret (return_Err (mkErr e))) tr.
Proof.
  unfold TRY_OK; cbn; unfold M_bind.
  split; destruct (pre tr) as [[[] | |] tr']; reflexivity.
Qed.

(** X20. [TRY_SOME] propagates without panicking: a present option hands
    its payload to the rest of the function, an absent one makes the
    function return [None] and the rest is not run. *)
Theorem TRY_SOME_propagates {T R} (return_None : NoneType -> R)
  (pre : M unit) (rest : T -> M R) (v : T) (tr : Trace) :
  TRY_SOME return_None (pre ;; ret (Present v)) rest tr
    = (pre ;; rest v) tr /\
  TRY_SOME return_None (pre ;; ret (@Absent T)) rest tr
    = (pre ;; ret (return_None None)) tr.
Proof.
  unfold TRY_SOME; cbn; unfold M_bind.
  split; destruct (pre tr) as [[[] | |] tr']; reflexivity.
Qed.

(** X21. The accessors of [Result]: on a success [value()], [unwrap()] and
    [expect(msg)] return the payload and do not reach their panic helper,
    and [unwrap_err()] and [expect_err(msg)] call theirs once; on a failure
    it is the other way round.  (The helpers are the modelled ones: one
    entry into the panic core, no return.) *)
Theorem Result_accessors {T E} (v : T) (e : E) (msg : string) (tr : Trace) :
  Result.value (@Success T E v) tr = (Returned v, tr) /\
  Result.unwrap (@Success T E v) tr = (Returned v, tr) /\
  Result.expect (@Success T E v) msg tr = (Returned v, tr) /\
  Result.unwrap_err (@Failure T E e) tr = (Returned e, tr) /\
  Result.expect_err (@Failure T E e) msg tr = (Returned e, tr) /\
  fatal (Result.value (@Failure T E e)) /\
  fatal (Result.unwrap (@Failure T E e)) /\
  fatal (Result.expect (@Failure T E e) msg) /\
  fatal (Result.unwrap_err (@Success T E v)) /\
  fatal (Result.expect_err (@Success T E v) msg).
Proof.
  repeat split; cbn; rewrite count_panics_app; cbn; lia.
Qed.

(** X22. The remaining accessors of [Option]: [expect(msg)] returns the
    payload of [Some(v)] and calls its panic helper once on [None];
    [expect_none(msg)] and [unwrap_none()] return on [None] and call their
    panic helper once on [Some(v)].  (The helpers are the modelled ones.) *)
Theorem Option_expect_accessors {T} (v : T) (msg : string) (tr : Trace) :
  Option.expect (Present v) msg tr = (Returned v, tr) /\
  Option.expect_none (@Absent T) msg tr = (Returned tt, tr) /\
  Option.unwrap_none (@Absent T) tr = (Returned tt, tr) /\
  fatal (Option.expect (@Absent T) msg) /\
  fatal (Option.expect_none (Present v) msg) /\
  fatal (Option.unwrap_none (Present v)).
Proof.
  repeat split; cbn; rewrite count_panics_app; cbn; lia.
Qed.

(** X23. [clone()] copies without touching the original: on a well-formed
    container it returns a well-formed container of the same variant, and
    when a copy of a payload compares equal to the payload, the clone
    compares equal to the original under [operator==]. *)
Theorem clone_equals_original {T E}
  `{equality_comparable T T} `{equality_comparable E E}
  `{copy_constructible T} `{copy_constructible E}
  (o : Option T) (r : Result T E) (tr : Trace) :
  (forall x : T, equal (copy x) x = true) ->
  (forall x : E, equal (copy x) x = true) ->
  Option.wf o -> Result.wf r ->
  (exists c, Option.clone o tr = (Returned c, tr) /\
             Option.wf c /\ Option.is_some c = Option.is_some o /\
             Option.operator_eq c o tr = (Returned true, tr)) /\
  (exists c, Result.clone r tr = (Returned c, tr) /\
             Result.wf c /\ Result.is_ok c = Result.is_ok r /\
             Result.operator_eq c r tr = (Returned true, tr)).
Proof.
  intros HT HE Ho Hr. option_cases o Ho; result_cases r Hr;
    (split; eexists; (split; [reflexivity |]); repeat split; cbn;
     rewrite ?HT, ?HE; reflexivity).
Qed.

Lemma clone_equals_original_witness :
  (exists c, Option.clone (Present 3) [] = (Returned c, []) /\
             Option.wf c /\ Option.is_some c = Option.is_some (Present 3) /\
             Option.operator_eq c (Present 3) [] = (Returned true, [])) /\
  (exists c, Result.clone (@Failure nat string "e"%string) [] = (Returned c, []) /\
             Result.wf c /\
             Result.is_ok c = Result.is_ok (@Failure nat string "e"%string) /\
             Result.operator_eq c (Failure "e"%string) [] = (Returned true, [])).
Proof.
  apply (@clone_equals_original nat string _ _ _ _
           (Present 3) (Failure "e"%string) []).
  - intros x. apply Nat.eqb_refl.
  - intros x. apply String.eqb_refl.
  - reflexivity.
  - reflexivity.
Defined.

(** X24. The eager combinators are the lazy ones applied to a callable
    that returns the operand: on well-formed operands [a.OR(b)] returns
    what [a.or_else(fn)] returns and [a.AND(c)] what [a.and_then(fn)]
    returns, and for results of the same success type [r.OR(alt)] returns
    what [r.or_else(fn)] returns. *)
Theorem eager_and_lazy_agree {T U E F}
  (a b : Option T) (c : Option U) (r : Result T E) (alt : Result T F)
  (tr : Trace) :
  Option.wf a -> Option.wf b -> Option.wf c -> Result.wf r -> Result.wf alt ->
  (exists x tr1 tr2,
      Option.OR a b tr = (Returned x, tr1) /\
      Option.or_else a (pure_fn (fun _ => b)) tr = (Returned x, tr2)) /\
  (exists x tr1 tr2,
      Option.AND a c tr = (Returned x, tr1) /\
      Option.and_then a (pure_fn (fun _ => c)) tr = (Returned x, tr2)) /\
  (exists x tr1 tr2,
      @Result.OR T E T F (convertible_to_refl T) r alt tr = (Returned x, tr1) /\
      Result.or_else r (pure_fn (fun _ => alt)) tr = (Returned x, tr2)).
Proof.
  intros Ha Hb Hc Hr Halt.
  option_cases a Ha; option_cases b Hb; option_cases c Hc;
    result_cases r Hr; result_cases alt Halt;
    repeat split; do 3 eexists; split; reflexivity.
Qed.

Lemma eager_and_lazy_agree_witness :
  (exists x tr1 tr2,
      Option.OR (@Absent nat) (Present 2) [] = (Returned x, tr1) /\
      Option.or_else (@Absent nat) (pure_fn (fun _ => Present 2)) []
        = (Returned x, tr2)) /\
  (exists x tr1 tr2,
      Option.AND (@Absent nat) (Present 3%Z) [] = (Returned x, tr1) /\
      Option.and_then (@Absent nat) (pure_fn (fun _ => Present 3%Z)) []
        = (Returned x, tr2)) /\
  (exists x tr1 tr2,
      @Result.OR nat nat nat string (convertible_to_refl nat)
        (Failure 1) (Failure "alt"%string) [] = (Returned x, tr1) /\
      Result.or_else (@Failure nat nat 1)
        (pure_fn (fun _ => @Failure nat string "alt"%string)) []
        = (Returned x, tr2)).
Proof.
  apply (@eager_and_lazy_agree nat Z nat string
           Absent (Present 2) (Present 3%Z) (Failure 1) (Failure "alt"%string) []);
    reflexivity.
Defined.

(** X25. Comparing two wrappers gives what comparing the containers built
    from them gives: [Some(a) == Some(b)], [Some(a) == None],
    [None == None], [Ok(a) == Ok(b)], [Ok(a) == Err(e)] and
    [Err(e) == Err(e')] agree with [operator==] on the converted
    containers. *)
Theorem wrapper_comparisons_agree {T E}
  `{equality_comparable T T} `{equality_comparable E E}
  (a b : T) (e e' : E) (tr : Trace) :
  Option.operator_eq (Option_from_Some (mkSome a)) (Option_from_Some (mkSome b)) tr
    = (Returned (Some_operator_eq (mkSome a) (mkSome b)), tr) /\
  Option.operator_eq (Option_from_Some (mkSome a)) (Option_from_None None) tr
    = (Returned (Some_operator_eq_None (mkSome a) None), tr) /\
  Option.operator_eq (@Option_from_None T None) (Option_from_None None) tr
    = (Returned (NoneType_operator_eq None None), tr) /\
  Result.operator_eq (@Result_from_Ok T E (mkOk a)) (Result_from_Ok (mkOk b)) tr
    = (Returned (Ok_operator_eq (mkOk a) (mkOk b)), tr) /\
  Result.operator_eq (@Result_from_Ok T E (mkOk a)) (Result_from_Err (mkErr e)) tr
    = (Returned (Ok_operator_eq_Err (mkOk a) (mkErr e)), tr) /\
  Result.operator_eq (@Result_from_Err T E (mkErr e)) (Result_from_Err (mkErr e')) tr
    = (Returned (Err_operator_eq (mkErr e) (mkErr e')), tr).
Proof.
  repeat split.
Qed.

(** X26. The algebra of [AND], [OR] and [XOR] on well-formed options:
    [XOR] is commutative, [OR] and [AND] are associative, and [None] is
    neutral for [OR] and [XOR] and absorbing for [AND]. *)
Theorem Option_combinator_algebra {T} (a b c : Option T) (tr : Trace) :
  Option.wf a -> Option.wf b -> Option.wf c ->
  (exists x tr1 tr2,
      Option.XOR a b tr = (Returned x, tr1) /\
      Option.XOR b a tr = (Returned x, tr2)) /\
  (exists x tr1 tr2,
      (ab <- Option.OR a b ;; Option.OR ab c) tr = (Returned x, tr1) /\
      (bc <- Option.OR b c ;; Option.OR a bc) tr = (Returned x, tr2)) /\
  (exists x tr1 tr2,
      (ab <- Option.AND a b ;; Option.AND ab c) tr = (Returned x, tr1) /\
      (bc <- Option.AND b c ;; Option.AND a bc) tr = (Returned x, tr2)) /\
  (exists tr1 tr2 tr3 tr4,
      Option.OR a Absent tr = (Returned a, tr1) /\
      Option.OR Absent a tr = (Returned a, tr2) /\
      Option.XOR a Absent tr = (Returned a, tr3) /\
      Option.XOR Absent a tr = (Returned a, tr4)) /\
  Option.AND (@Absent T) a tr = (Returned Absent, tr) /\
  (exists tr', Option.AND a (@Absent T) tr = (Returned Absent, tr')).
Proof.
  intros Ha Hb Hc.
  option_cases a Ha; option_cases b Hb; option_cases c Hc;
    repeat split; repeat eexists; reflexivity.
Qed.

Lemma Option_combinator_algebra_witness :
  (exists x tr1 tr2,
      Option.XOR (Present 1) (@Absent nat) [] = (Returned x, tr1) /\
      Option.XOR (@Absent nat) (Present 1) [] = (Returned x, tr2)) /\
  (exists x tr1 tr2,
      (ab <- Option.OR (Present 1) (@Absent nat) ;; Option.OR ab (Present 3)) []
        = (Returned x, tr1) /\
      (bc <- Option.OR (@Absent nat) (Present 3) ;; Option.OR (Present 1) bc) []
        = (Returned x, tr2)) /\
  (exists x tr1 tr2,
      (ab <- Option.AND (Present 1) (@Absent nat) ;; Option.AND ab (Present 3)) []
        = (Returned x, tr1) /\
      (bc <- Option.AND (@Absent nat) (Present 3) ;; Option.AND (Present 1) bc) []
        = (Returned x, tr2)) /\
  (exists tr1 tr2 tr3 tr4,
      Option.OR (Present 1) Absent [] = (Returned (Present 1), tr1) /\
      Option.OR Absent (Present 1) [] = (Returned (Present 1), tr2) /\
      Option.XOR (Present 1) Absent [] = (Returned (Present 1), tr3) /\
      Option.XOR Absent (Present 1) [] = (Returned (Present 1), tr4)) /\
  Option.AND (@Absent nat) (Present 1) [] = (Returned Absent, []) /\
  (exists tr', Option.AND (Present 1) (@Absent nat) [] = (Returned Absent, tr')).
Proof.
  apply (@Option_combinator_algebra nat (Present 1) Absent (Present 3) []);
    reflexivity.
Defined.

(** X27. On a well-formed result the defaulting accessors agree and never
    enter the panic core: [unwrap_or(alt)], [unwrap_or_else] with a
    callable returning [alt], [map_or] and [map_or_else] with the identity
    all return the success payload when there is one and [alt] otherwise;
    [unwrap_or_default()] is [unwrap_or(T())]. *)
Theorem Result_unwrap_or_family {T E} `{default_constructible T}
  (r : Result T E) (alt : T) (tr : Trace) :
  Result.wf r ->
  exists x tr1 tr2,
    Result.unwrap_or r alt tr = (Returned x, tr) /\
    Result.unwrap_or_else r (pure_fn (fun _ => alt)) tr = (Returned x, tr1) /\
    Result.map_or r (pure_fn (fun v => v)) alt tr = (Returned x, tr2) /\
    Result.map_or_else r (pure_fn (fun v => v)) (pure_fn (fun _ => alt)) tr
      = (Returned x, tr ++ [EvInvoke]) /\
    count_panics tr1 = count_panics tr /\
    count_panics tr2 = count_panics tr /\
    (forall v, r = Success v -> x = v) /\
    (forall e, r = Failure e -> x = alt) /\
    Result.unwrap_or_default r tr = Result.unwrap_or r default_value tr.
Proof.
  intros Hwf. result_cases r Hwf.
  - exists v. do 2 eexists. do 4 (split; [reflexivity |]).
    repeat split; cbn; rewrite ?count_panics_app; cbn; try lia; by_variant.
  - exists alt. do 2 eexists. do 4 (split; [reflexivity |]).
    repeat split; cbn; rewrite ?count_panics_app; cbn; try lia; by_variant.
Qed.

Lemma Result_unwrap_or_family_witness :
  exists x tr1 tr2,
    Result.unwrap_or (@Failure nat string "e"%string) 5 [] = (Returned x, []) /\
    Result.unwrap_or_else (@Failure nat string "e"%string) (pure_fn (fun _ => 5)) []
      = (Returned x, tr1) /\
    Result.map_or (@Failure nat string "e"%string) (pure_fn (fun v => v)) 5 []
      = (Returned x, tr2) /\
    Result.map_or_else (@Failure nat string "e"%string)
      (pure_fn (fun v => v)) (pure_fn (fun _ => 5)) []
      = (Returned x, [] ++ [EvInvoke]) /\
    count_panics tr1 = count_panics [] /\
    count_panics tr2 = count_panics [] /\
    (forall v, @Failure nat string "e"%string = Success v -> x = v) /\
    (forall e, @Failure nat string "e"%string = Failure e -> x = 5) /\
    Result.unwrap_or_default (@Failure nat string "e"%string) []
      = Result.unwrap_or (@Failure nat string "e"%string) default_value [].
Proof.
  apply (@Result_unwrap_or_family nat string _ (Failure "e"%string) 5 []).
  reflexivity.
Defined.

End stx.
